(** * ARS-Simulator: window wrapper and placement controllers

    A shallow embedding of

    - [graphics/window.py]                          ([BaseWindow]),
    - [simulation/sub_controller/robot_controller.py],
    - [commander/sub_controller/robot_controller.py],
    - [commander/sub_controller/goal_controller.py],

    with Python objects as records, attribute mutation as explicit state
    passing, and exceptions as an outcome that keeps the state reached when
    the exception left the method. *)

From Stdlib Require Import ZArith List String Bool Lia Permutation Sorted.
From Stdlib Require QArith.
From Stdlib Require Import Relations.
Import ListNotations.

Set Implicit Arguments.
Local Open Scope string_scope.
Local Open Scope list_scope.
Local Open Scope Z_scope.

(** ** Python exceptions and the method monad *)

Inductive exn : Type :=
| KeyError
| ValueError
| AttributeError
| TypeError
| OverflowError.

Inductive outcome (A : Type) : Type :=
| Return (a : A)
| Raise (e : exn).

Arguments Return {A} a.
Arguments Raise {A} e.

(** Sequencing of expressions that may raise. *)
Definition and_then {A B} (o : outcome A) (k : A -> outcome B) : outcome B :=
  match o with
  | Return a => k a
  | Raise e => Raise e
  end.

(** A method body: it reads and mutates [self] (of type [St]) and either
    returns or raises.  Mutations done before a [raise] stay. *)
Definition M (St A : Type) : Type := St -> outcome A * St.

Definition ret {St A} (a : A) : M St A := fun s => (Return a, s).

Definition raise {St A} (e : exn) : M St A := fun s => (Raise e, s).

Definition bind {St A B} (m : M St A) (k : A -> M St B) : M St B :=
  fun s =>
    match m s with
    | (Return a, s') => k a s'
    | (Raise e, s') => (Raise e, s')
    end.

Definition gets {St A} (f : St -> A) : M St A := fun s => (Return (f s), s).

Definition modify {St} (f : St -> St) : M St unit := fun s => (Return tt, f s).

(** Lifting a lookup that raises when it finds nothing. *)
Definition lookup_or {St A} (e : exn) (o : option A) : M St A :=
  match o with
  | Some a => ret a
  | None => raise e
  end.

Declare Scope py_scope.
Delimit Scope py_scope with py.
Notation "x <- c1 ;; c2" := (bind c1 (fun x => c2))
  (at level 61, c1 at next level, right associativity) : py_scope.
Notation "c1 ;; c2" := (bind c1 (fun _ => c2))
  (at level 61, right associativity) : py_scope.

Definition result_of {St A} (r : outcome A * St) : outcome A := fst r.
Definition state_of {St A} (r : outcome A * St) : St := snd r.

Definition returns {St A} (r : outcome A * St) : Prop :=
  exists a, fst r = Return a.

(** ** Decidable equality on dictionary keys *)

Class EqDec (A : Type) : Type :=
  eq_dec : forall x y : A, {x = y} + {x <> y}.

#[export] Instance string_EqDec : EqDec string := string_dec.
#[export] Instance Z_EqDec : EqDec Z := Z.eq_dec.

(** ** Python dictionaries

    A [dict] keeps its entries in insertion order, and
    [list(d.values())] observes that order, so a dictionary is the list of
    its entries.  Assigning to a present key keeps the entry's place;
    assigning to an absent key appends. *)

Module PyDict.

Definition t (K V : Type) : Type := list (K * V).

Section Dict.
Context {K V : Type} `{EqDec K}.

Definition empty : t K V := [].

Definition keys (d : t K V) : list K := map fst d.

Definition values (d : t K V) : list V := map snd d.

(** [d[k]]; [None] stands for the [KeyError]. *)
Fixpoint getitem (k : K) (d : t K V) : option V :=
  match d with
  | [] => None
  | (k', v) :: r => if eq_dec k k' then Some v else getitem k r
  end.

(** [k in d] *)
Definition contains (k : K) (d : t K V) : bool :=
  match getitem k d with Some _ => true | None => false end.

(** [d[k] = v] *)
Fixpoint setitem (k : K) (v : V) (d : t K V) : t K V :=
  match d with
  | [] => [(k, v)]
  | (k', v') :: r =>
      if eq_dec k k' then (k', v) :: r else (k', v') :: setitem k v r
  end.

(** The dictionary without its entry for [k]. *)
Fixpoint remove (k : K) (d : t K V) : t K V :=
  match d with
  | [] => []
  | (k', v') :: r =>
      if eq_dec k k' then remove k r else (k', v') :: remove k r
  end.

(** [del d[k]] *)
Definition delitem (k : K) (d : t K V) : outcome (t K V) :=
  if contains k d then Return (remove k d) else Raise KeyError.

(** [d.pop(k, default)], with the popped value dropped. *)
Definition pop_default (k : K) (d : t K V) : t K V := remove k d.

(** How many entries carry the key [k]. *)
Definition count (k : K) (d : t K V) : nat :=
  List.length
    (filter (fun e => if eq_dec k (fst e) then true else false) d).

(** Keys are unique: what every Python dictionary satisfies. *)
Definition wf (d : t K V) : Prop := NoDup (keys d).

End Dict.
End PyDict.

(** ** [list.sort(key=..., reverse=...)]

    Python's sort is stable, also with [reverse=True]: entries with equal
    keys keep their order.  A stable insertion sort computes the same list. *)

Section Sort.
Context {A : Type}.
Variable key : A -> Z.
Variable reverse : bool.

(** [goes_before a b]: [a], met first, may stay in front of [b]. *)
Definition goes_before (a b : A) : bool :=
  if reverse then key b <=? key a else key a <=? key b.

Fixpoint sort_insert (a : A) (l : list A) : list A :=
  match l with
  | [] => [a]
  | b :: r => if goes_before a b then a :: b :: r else b :: sort_insert a r
  end.

Fixpoint list_sort (l : list A) : list A :=
  match l with
  | [] => []
  | a :: r => sort_insert a (list_sort r)
  end.

End Sort.

(** ** graphics/window.py *)

Module Window.
Section BaseWindow.
(** What the window stores by reference: sprite objects and callables. *)
Variables Sprite Func : Type.

(** [py.QUIT], the toolkit's event type for closing the window. *)
Variable QUIT : Z.

(** The attributes of a [BaseWindow].  The screen surface, the font and the
    clock are toolkit objects and are left out. *)
Record BaseWindow : Type := mkWindow {
  _width : Z;
  _height : Z;
  _window_size : Z * Z;
  _draw_area : Z * Z;
  _flags : Z;
  _frame_rate : Z;
  _running : bool;
  _callbacks : PyDict.t Z Func;
  _sprites : PyDict.t string (Z * Sprite);
  _sprite_list : list (Z * Sprite)
}.

Definition set__frame_rate (v : Z) (w : BaseWindow) : BaseWindow :=
  mkWindow (_width w) (_height w) (_window_size w) (_draw_area w) (_flags w)
           v (_running w) (_callbacks w) (_sprites w) (_sprite_list w).

Definition set__running (v : bool) (w : BaseWindow) : BaseWindow :=
  mkWindow (_width w) (_height w) (_window_size w) (_draw_area w) (_flags w)
           (_frame_rate w) v (_callbacks w) (_sprites w) (_sprite_list w).

Definition set__callbacks (v : PyDict.t Z Func) (w : BaseWindow)
  : BaseWindow :=
  mkWindow (_width w) (_height w) (_window_size w) (_draw_area w) (_flags w)
           (_frame_rate w) (_running w) v (_sprites w) (_sprite_list w).

Definition set__sprites (v : PyDict.t string (Z * Sprite)) (w : BaseWindow)
  : BaseWindow :=
  mkWindow (_width w) (_height w) (_window_size w) (_draw_area w) (_flags w)
           (_frame_rate w) (_running w) (_callbacks w) v (_sprite_list w).

Definition set__sprite_list (v : list (Z * Sprite)) (w : BaseWindow)
  : BaseWindow :=
  mkWindow (_width w) (_height w) (_window_size w) (_draw_area w) (_flags w)
           (_frame_rate w) (_running w) (_callbacks w) (_sprites w) v.

(** [BaseWindow.__init__]; [draw_area = None] falls back to the window
    size, and the frame rate is stored as given. *)
Definition __init__ (window_size : Z * Z) (draw_area : option (Z * Z))
           (frame_rate : Z) (flags : Z) : BaseWindow :=
  mkWindow (fst window_size) (snd window_size) window_size
           (match draw_area with Some a => a | None => window_size end)
           flags frame_rate false PyDict.empty PyDict.empty [].

Definition get_window_size (w : BaseWindow) : Z * Z := _window_size w.

Definition get_flags (w : BaseWindow) : Z := _flags w.

(** The [frame_rate] property. *)
Definition frame_rate (w : BaseWindow) : Z := _frame_rate w.

(** The [frame_rate] setter. *)
Definition frame_rate_setter (frame_rate : Z) : M BaseWindow unit :=
  if (frame_rate <? 1) || (frame_rate >? 60)
  then raise ValueError
  else modify (set__frame_rate frame_rate).

Definition _update_sprite_list : M BaseWindow unit :=
  modify (fun w =>
    let comp := fun sprite : Z * Sprite => fst sprite in
    set__sprite_list (list_sort comp true (PyDict.values (_sprites w))) w).

Definition add_sprite (name : string) (sprite : Sprite) (zindex : Z)
  : M BaseWindow unit :=
  (modify (fun w =>
     set__sprites (PyDict.setitem name (zindex, sprite) (_sprites w)) w) ;;
   _update_sprite_list)%py.

Definition remove_sprite (name : string) : M BaseWindow unit :=
  (modify (fun w =>
     set__sprites (PyDict.pop_default name (_sprites w)) w) ;;
   _update_sprite_list)%py.

Definition on_callback (type : Z) (func : Func) : M BaseWindow unit :=
  modify (fun w =>
    set__callbacks (PyDict.setitem type func (_callbacks w)) w).

Definition remove_callback (type : Z) : M BaseWindow unit :=
  fun w =>
    match PyDict.delitem type (_callbacks w) with
    | Return d => (Return tt, set__callbacks d w)
    | Raise e => (Raise e, w)
    end.

(** What one frame does to the world outside the window object. *)
Inductive effect : Type :=
| Call (f : Func)
| Draw (s : Sprite)
| Tick (rate : Z)
| Flip.

(** A toolkit event, as far as the window looks at it. *)
Record Event : Type := mkEvent { ev_type : Z }.

(** [BaseWindow.event]: the callables it invoked, in order. *)
Definition event (e : Event) : M BaseWindow (list effect) :=
  if ev_type e =? QUIT then
    (modify (set__running false) ;;
     cbs <- gets _callbacks ;;
     if PyDict.contains QUIT cbs then
       (f <- lookup_or KeyError (PyDict.getitem QUIT cbs) ;;
        ret [Call f])
     else ret [])%py
  else ret [].

Fixpoint handle_events (es : list Event) : M BaseWindow (list effect) :=
  match es with
  | [] => ret []
  | e :: r =>
      (tr <- event e ;; tr' <- handle_events r ;; ret (tr ++ tr'))%py
  end.

(** [for _, sprite in self._sprite_list: sprite.draw()] *)
Definition draw_sprites (w : BaseWindow) : list effect :=
  map (fun entry => Draw (snd entry)) (_sprite_list w).

(** One turn of the loop in [start], on the events the toolkit hands out
    in that turn.  [self.draw()] does nothing in this class. *)
Definition frame (es : list Event) : M BaseWindow (list effect) :=
  (tr <- handle_events es ;;
   drawn <- gets draw_sprites ;;
   rate <- gets _frame_rate ;;
   ret (tr ++ drawn ++ [Tick rate; Flip]))%py.

Fixpoint main_loop (input : list (list Event))
  : M BaseWindow (list effect) :=
  match input with
  | [] => ret []
  | es :: rest =>
      (running <- gets _running ;;
       if running : bool then
         (tr <- frame es ;; tr' <- main_loop rest ;; ret (tr ++ tr'))
       else ret [])%py
  end.

(** [BaseWindow.start], run on a finite prefix of the toolkit's event
    stream, one batch per turn of the loop. *)
Definition start (input : list (list Event)) : M BaseWindow (list effect) :=
  (modify (set__running true) ;; main_loop input)%py.

(** One public mutation of the window. *)
Inductive step : BaseWindow -> BaseWindow -> Prop :=
| step_frame_rate fr w :
    step w (state_of (frame_rate_setter fr w))
| step_add_sprite name s z w :
    step w (state_of (add_sprite name s z w))
| step_remove_sprite name w :
    step w (state_of (remove_sprite name w))
| step_on_callback ty f w :
    step w (state_of (on_callback ty f w))
| step_remove_callback ty w :
    step w (state_of (remove_callback ty w))
| step_event e w :
    step w (state_of (event e w))
| step_start input w :
    step w (state_of (start input w)).

(** The windows a program can hold: constructed, then mutated through the
    methods. *)
Inductive reachable : BaseWindow -> Prop :=
| reach_init ws da fr fl : reachable (__init__ ws da fr fl)
| reach_step w w' : reachable w -> step w w' -> reachable w'.

(** The sprite list is the sprite table's values, sorted by zindex,
    highest first; no key occurs twice in either table. *)
Definition sprite_list_current (w : BaseWindow) : Prop :=
  _sprite_list w
  = list_sort (fun sprite : Z * Sprite => fst sprite) true
              (PyDict.values (_sprites w)).

Definition invariant (w : BaseWindow) : Prop :=
  PyDict.wf (_callbacks w) /\ PyDict.wf (_sprites w)
  /\ sprite_list_current w.

Definition zindex_desc (a b : Z * Sprite) : Prop := fst b <= fst a.

End BaseWindow.

Arguments Call {Sprite Func} f.
Arguments Draw {Sprite Func} s.
Arguments Tick {Sprite Func} rate.
Arguments Flip {Sprite Func}.
Arguments __init__ {Sprite Func} window_size draw_area frame_rate flags.

End Window.

(** ** Python values in positions and in the persisted document *)

(** The toolkit's floating-point numbers are kept abstract; only the
    conversion from integers done by [dtype=float] is named. *)
Class Numbers : Type := {
  float : Type;
  float_of_int : Z -> float
}.

Section Values.
Context `{Numbers}.

#[warnings="-register-all"]
Inductive pyval : Type :=
| VInt (z : Z)
| VFloat (f : float)
| VDict (d : list (string * pyval)).

Definition pydict : Type := PyDict.t string pyval.

(** [d[k1][k2] = v]: the inner dictionary is the object stored under [k1],
    so the outer one sees the new entry. *)
Definition setitem_nested (k1 k2 : string) (v : pyval) (d : pydict)
  : outcome pydict :=
  match PyDict.getitem k1 d with
  | Some (VDict inner) =>
      Return (PyDict.setitem k1 (VDict (PyDict.setitem k2 v inner)) d)
  | Some _ => Raise TypeError
  | None => Raise KeyError
  end.

(** Python converts an int to a float by rounding to the nearest double and
    refuses, with "int too large to convert to float", when that leaves the
    finite range: from [2**1024 - 2**970] on, in either direction. *)
Definition float_overflows (z : Z) : bool :=
  2 ^ 1024 - 2 ^ 970 <=? Z.abs z.

(** The conversion of one entry in [np.array([x, y], dtype=float)]. *)
Definition as_float (v : pyval) : outcome float :=
  match v with
  | VInt z =>
      if float_overflows z then Raise OverflowError
      else Return (float_of_int z)
  | VFloat f => Return f
  | VDict _ => Raise TypeError
  end.

(** The values the conversion accepts: floats, and ints a double can
    hold. *)
Definition converts_to_float (v : pyval) : bool :=
  match v with
  | VInt z => negb (float_overflows z)
  | VFloat _ => true
  | VDict _ => false
  end.

(** [np.array([x, y], dtype=float)] *)

Definition np_array_float (x y : pyval) : outcome (float * float) :=
  and_then (as_float x) (fun fx =>
  and_then (as_float y) (fun fy => Return (fx, fy))).

End Values.

Definition color : Type := (Z * Z * Z)%type.

(** ** Sprites *)

Module Sprites.
Section Sprites.
Context `{Numbers}.

(** Modelled from the spec: [graphics/objects/robot.py] is not under src/.
    A sprite is "a visual entity drawn each frame at a
    position/orientation"; the robot marker stores the position and the
    direction it is given and reports them back. *)
Record Robot : Type := mkRobot {
  rb_x : pyval;
  rb_y : pyval;
  rb_direction : pyval;
  rb_size : Z;
  rb_color : color
}.

Definition set_position (pos : pyval * pyval) (r : Robot) : Robot :=
  mkRobot (fst pos) (snd pos) (rb_direction r) (rb_size r) (rb_color r).

Definition get_position (r : Robot) : pyval * pyval := (rb_x r, rb_y r).

Definition set_direction (dir : pyval) (r : Robot) : Robot :=
  mkRobot (rb_x r) (rb_y r) dir (rb_size r) (rb_color r).

Definition get_direction (r : Robot) : pyval := rb_direction r.

(** Modelled from the spec: [graphics/objects/text.py] is not under src/.
    A text sprite stores its string, position, anchor, font size and
    color. *)
Record Text : Type := mkText {
  tx_text : string;
  tx_x : Z;
  tx_y : Z;
  tx_anchor : option Z;
  tx_size : Z;
  tx_color : color
}.

Definition new_Text (text : string) (x y size : Z) (c : color) : Text :=
  mkText text x y None size c.

Definition text_set_position (pos : Z * Z) (anchor : Z) (t : Text) : Text :=
  mkText (tx_text t) (fst pos) (snd pos) (Some anchor) (tx_size t)
         (tx_color t).

Definition set_color (c : color) (t : Text) : Text :=
  mkText (tx_text t) (tx_x t) (tx_y t) (tx_anchor t) (tx_size t) c.

(** Modelled from the spec: [motion_model/robot.py] is not under src/.
    The simulated robot is built from a float position and a size. *)
Record SimRobot : Type := mkSimRobot {
  sr_position : float * float;
  sr_size : Z
}.

End Sprites.
End Sprites.

(** The constants a package's [__init__.py] and [window.py] export; neither
    file is under src/. *)
Class Constants `{Numbers} : Type := {
  CREATOR : Z;
  MANUAL : Z;
  SHORTCUT_TEXT_COLOR : color;
  SHORTCUT_TEXT_COLOR_ACTIVE : color;
  ANCHOR_TOP_LEFT : Z;
  CREATOR_PLACE_ROBOT : Z;
  CREATOR_PLACE_GOAL : Z;
  MOUSE_CLICK : Z;
  MANUAL_LEFT_INCREASE : Z;
  MANUAL_LEFT_DECREASE : Z;
  MANUAL_RIGHT_INCREASE : Z;
  MANUAL_RIGHT_DECREASE : Z;
  MANUAL_BOTH_INCREASE : Z;
  (** the direction a newly built robot sprite reports *)
  initial_direction : pyval
}.

Definition ROBOT_COLOR : color := (160, 160, 200).
Definition ROBOT_SIZE : Z := 50.

(** ** simulation/sub_controller/robot_controller.py *)

Module Simulation.

(** The objects the window stores for this package: sprites by identity and
    bound methods by name.  The [foreign] ones belong to other
    controllers. *)
Inductive sprite_ref : Type :=
| the_sprite_robot
| the_text_robot
| foreign_sprite (n : nat).

Inductive callback : Type :=
| self_toggle
| self__on_mouse_click
| foreign_callback (n : nat).

Section RobotController.
Context `{Constants}.

Import Sprites.

Definition window : Type := Window.BaseWindow sprite_ref callback.

(** The attributes of a [RobotController].  [_text_robot] exists only
    after [__init__] ran in CREATOR mode.

    Modelled from the spec: [graphics/sub_controller.py] is not under src/.
    [BaseSubController] keeps the flag [_toggled] of the "toggle mode"
    and a registered callback; [callback_runs] counts how often that
    callback was executed. *)
Record RobotController : Type := mkController {
  _toggled : bool;
  callback_runs : nat;
  _app_mode : Z;
  dict_name : string;
  _window : window;
  _ww : Z;
  _wh : Z;
  _robot : Robot;
  _text_robot : option Text
}.

Definition set__toggled (v : bool) (c : RobotController) : RobotController :=
  mkController v (callback_runs c) (_app_mode c) (dict_name c) (_window c)
               (_ww c) (_wh c) (_robot c) (_text_robot c).

Definition set_callback_runs (v : nat) (c : RobotController)
  : RobotController :=
  mkController (_toggled c) v (_app_mode c) (dict_name c) (_window c)
               (_ww c) (_wh c) (_robot c) (_text_robot c).

Definition set__window (v : window) (c : RobotController)
  : RobotController :=
  mkController (_toggled c) (callback_runs c) (_app_mode c) (dict_name c) v
               (_ww c) (_wh c) (_robot c) (_text_robot c).

Definition set__robot (v : Robot) (c : RobotController) : RobotController :=
  mkController (_toggled c) (callback_runs c) (_app_mode c) (dict_name c)
               (_window c) (_ww c) (_wh c) v (_text_robot c).

Definition set__text_robot (v : option Text) (c : RobotController)
  : RobotController :=
  mkController (_toggled c) (callback_runs c) (_app_mode c) (dict_name c)
               (_window c) (_ww c) (_wh c) (_robot c) v.

(** A call of a method of [self._window]. *)
Definition on_window {A} (m : M window A) : M RobotController A :=
  fun c =>
    match m (_window c) with
    | (r, w') => (r, set__window w' c)
    end.

(** A method call on [self._text_robot]; the attribute may be missing. *)
Definition on_text_robot (f : Text -> Text) : M RobotController unit :=
  fun c =>
    match _text_robot c with
    | Some t => (Return tt, set__text_robot (Some (f t)) c)
    | None => (Raise AttributeError, c)
    end.

(** Modelled from the spec: [BaseSubController.toggle] and [is_toggled]
    ([graphics/sub_controller.py] is not under src/).  Toggling flips the
    toggle mode; "If false, then the registered callback is not
    executed". *)
Definition base_toggle (call : bool) : M RobotController unit :=
  modify (fun c =>
    let c' := set__toggled (negb (_toggled c)) c in
    if call then set_callback_runs (S (callback_runs c')) c' else c').

Definition is_toggled (c : RobotController) : bool := _toggled c.

(** [RobotController.__init__] *)
Definition __init__ (window0 : window) (app_mode : Z) : RobotController :=
  let (ww, wh) := Window.get_window_size window0 in
  let robot :=
    mkRobot (VInt (- ROBOT_SIZE * 2)) (VInt (- ROBOT_SIZE * 2))
            initial_direction ROBOT_SIZE ROBOT_COLOR in
  let w1 := state_of (Window.add_sprite "sprite_robot" the_sprite_robot 0
                                         window0) in
  let self := mkController false 0%nat app_mode "robot" w1 ww wh robot None in
  if app_mode =? CREATOR then
    let text :=
      new_Text "'R' Place the robot" 0 0 30 SHORTCUT_TEXT_COLOR in
    let text := text_set_position (20, wh - 130) ANCHOR_TOP_LEFT text in
    let w2 := state_of (Window.add_sprite "text_robot" the_text_robot 0
                                           w1) in
    let w3 := state_of (Window.on_callback CREATOR_PLACE_ROBOT self_toggle
                                            w2) in
    set__window w3 (set__text_robot (Some text) self)
  else self.

(** [RobotController.toggle] *)
Definition toggle (call : bool) : M RobotController unit :=
  (base_toggle call ;;
   toggled <- gets _toggled ;;
   if toggled : bool then
     (on_window (Window.on_callback MOUSE_CLICK self__on_mouse_click) ;;
      on_text_robot (set_color SHORTCUT_TEXT_COLOR_ACTIVE))
   else
     (on_window (Window.remove_callback MOUSE_CLICK) ;;
      on_text_robot (set_color SHORTCUT_TEXT_COLOR)))%py.

(** [RobotController._on_mouse_click] *)
Definition _on_mouse_click (pos : pyval * pyval) : M RobotController unit :=
  (modify (fun c => set__robot (set_position pos (_robot c)) c) ;;
   toggle true)%py.

(** [RobotController.loop]; [mouse_pos] is what [py.mouse.get_pos()]
    answers. *)
Definition loop (mouse_pos : Z * Z) : M RobotController unit :=
  (toggled <- gets is_toggled ;;
   if toggled : bool then
     modify (fun c =>
       set__robot
         (set_position (VInt (fst mouse_pos), VInt (snd mouse_pos))
                       (_robot c)) c)
   else ret tt)%py.

(** [RobotController.to_dict] *)
Definition to_dict (c : RobotController) : outcome pydict :=
  let (x, y) := get_position (_robot c) in
  let dict_file : pydict := PyDict.empty in
  let dict_file := PyDict.setitem "robot" (VDict PyDict.empty) dict_file in
  and_then (setitem_nested "robot" "x" x dict_file) (fun dict_file =>
  and_then (setitem_nested "robot" "y" y dict_file) (fun dict_file =>
  and_then (setitem_nested "robot" "direction"
                           (get_direction (_robot c)) dict_file)
           (fun dict_file => Return dict_file))).

(** [RobotController.from_dict] *)
Definition from_dict (d : pydict) : M RobotController unit :=
  (x <- lookup_or KeyError (PyDict.getitem "x" d) ;;
   y <- lookup_or KeyError (PyDict.getitem "y" d) ;;
   let pos := (x, y) in
   dir <- lookup_or KeyError (PyDict.getitem "direction" d) ;;
   modify (fun c => set__robot (set_position pos (_robot c)) c) ;;
   modify (fun c => set__robot (set_direction dir (_robot c)) c))%py.

(** What [__init__] leaves true for good: in CREATOR mode the shortcut
    text exists. *)
Definition creator_has_text (c : RobotController) : Prop :=
  _app_mode c = CREATOR -> exists t, _text_robot c = Some t.

End RobotController.
End Simulation.

(** ** commander/sub_controller/robot_controller.py *)

Module Commander.

Inductive sprite_ref : Type :=
| the_sprite_robot
| the_text_robot
| the_text_goal
| foreign_sprite (n : nat).

(** [robot_motor_left l] is the closure [_motor_left(l)], and so on.  What
    the closures and [loop] do to the simulated robot is in
    [motion_model/robot.py], which is not under src/; they are registered
    here and not run. *)
Inductive callback : Type :=
| robot_toggle
| robot__on_mouse_click
| robot_motor_left (left : Z)
| robot_motor_right (right : Z)
| robot_motors_both (left right : Z)
| goal_toggle
| foreign_callback (n : nat).

Section RobotController.
Context `{Constants}.

Import Sprites.

Definition window : Type := Window.BaseWindow sprite_ref callback.

(** The attributes of a [RobotController]: [_robot] is the simulated
    robot, [_sprite_robot] the marker.  The [BaseSubController] part is
    modelled as in the simulation package. *)
Record RobotController : Type := mkController {
  _toggled : bool;
  callback_runs : nat;
  _app_mode : Z;
  dict_name : string;
  _robot : SimRobot;
  _window : window;
  _ww : Z;
  _wh : Z;
  _sprite_robot : Robot;
  _text_robot : option Text
}.

Definition set__toggled (v : bool) (c : RobotController) : RobotController :=
  mkController v (callback_runs c) (_app_mode c) (dict_name c) (_robot c)
               (_window c) (_ww c) (_wh c) (_sprite_robot c)
               (_text_robot c).

Definition set_callback_runs (v : nat) (c : RobotController)
  : RobotController :=
  mkController (_toggled c) v (_app_mode c) (dict_name c) (_robot c)
               (_window c) (_ww c) (_wh c) (_sprite_robot c)
               (_text_robot c).

Definition set__robot (v : SimRobot) (c : RobotController)
  : RobotController :=
  mkController (_toggled c) (callback_runs c) (_app_mode c) (dict_name c) v
               (_window c) (_ww c) (_wh c) (_sprite_robot c)
               (_text_robot c).

Definition set__window (v : window) (c : RobotController)
  : RobotController :=
  mkController (_toggled c) (callback_runs c) (_app_mode c) (dict_name c)
               (_robot c) v (_ww c) (_wh c) (_sprite_robot c)
               (_text_robot c).

Definition set__sprite_robot (v : Robot) (c : RobotController)
  : RobotController :=
  mkController (_toggled c) (callback_runs c) (_app_mode c) (dict_name c)
               (_robot c) (_window c) (_ww c) (_wh c) v (_text_robot c).

Definition set__text_robot (v : option Text) (c : RobotController)
  : RobotController :=
  mkController (_toggled c) (callback_runs c) (_app_mode c) (dict_name c)
               (_robot c) (_window c) (_ww c) (_wh c) (_sprite_robot c) v.

Definition on_window {A} (m : M window A) : M RobotController A :=
  fun c =>
    match m (_window c) with
    | (r, w') => (r, set__window w' c)
    end.

Definition on_text_robot (f : Text -> Text) : M RobotController unit :=
  fun c =>
    match _text_robot c with
    | Some t => (Return tt, set__text_robot (Some (f t)) c)
    | None => (Raise AttributeError, c)
    end.

(** Modelled from the spec: [BaseSubController.toggle] and [is_toggled]
    ([graphics/sub_controller.py] is not under src/). *)
Definition base_toggle (call : bool) : M RobotController unit :=
  modify (fun c =>
    let c' := set__toggled (negb (_toggled c)) c in
    if call then set_callback_runs (S (callback_runs c')) c' else c').

Definition is_toggled (c : RobotController) : bool := _toggled c.

(** [SimRobot(np.array([x, y], dtype=float), ROBOT_SIZE)] *)
Definition new_SimRobot (x y : pyval) : outcome SimRobot :=
  and_then (np_array_float x y) (fun a => Return (mkSimRobot a ROBOT_SIZE)).

(** [RobotController.__init__] *)
Definition __init__ (window0 : window) (app_mode : Z) : RobotController :=
  let robot :=
    mkSimRobot (float_of_int (- ROBOT_SIZE * 2),
                float_of_int (- ROBOT_SIZE * 2)) ROBOT_SIZE in
  let (ww, wh) := Window.get_window_size window0 in
  let sprite_robot :=
    mkRobot (VInt (- ROBOT_SIZE * 2)) (VInt (- ROBOT_SIZE * 2))
            initial_direction ROBOT_SIZE ROBOT_COLOR in
  let w := state_of (Window.add_sprite "sprite_robot" the_sprite_robot 0
                                        window0) in
  let text_robot :=
    if app_mode =? CREATOR then
      Some (text_set_position (20, wh - 130) ANCHOR_TOP_LEFT
              (new_Text "'R' Place the robot" 0 0 30 SHORTCUT_TEXT_COLOR))
    else None in
  let w :=
    if app_mode =? CREATOR then
      state_of (Window.on_callback CREATOR_PLACE_ROBOT robot_toggle
        (state_of (Window.add_sprite "text_robot" the_text_robot 0 w)))
    else w in
  let w :=
    if app_mode =? MANUAL then
      state_of (Window.on_callback MANUAL_BOTH_INCREASE
                  (robot_motors_both 1 1)
        (state_of (Window.on_callback MANUAL_RIGHT_DECREASE
                     (robot_motor_right (-1))
        (state_of (Window.on_callback MANUAL_RIGHT_INCREASE
                     (robot_motor_right 1)
        (state_of (Window.on_callback MANUAL_LEFT_DECREASE
                     (robot_motor_left (-1))
        (state_of (Window.on_callback MANUAL_LEFT_INCREASE
                     (robot_motor_left 1) w)))))))))
    else w in
  mkController false 0%nat app_mode "robot" robot w ww wh sprite_robot
               text_robot.

(** [RobotController.toggle] *)
Definition toggle (call : bool) : M RobotController unit :=
  (base_toggle call ;;
   toggled <- gets _toggled ;;
   if toggled : bool then
     (on_window (Window.on_callback MOUSE_CLICK robot__on_mouse_click) ;;
      on_text_robot (set_color SHORTCUT_TEXT_COLOR_ACTIVE))
   else
     (on_window (Window.remove_callback MOUSE_CLICK) ;;
      on_text_robot (set_color SHORTCUT_TEXT_COLOR)))%py.

(** [RobotController._on_mouse_click] *)
Definition _on_mouse_click (pos : pyval * pyval) : M RobotController unit :=
  (modify (fun c =>
     set__sprite_robot (set_position pos (_sprite_robot c)) c) ;;
   toggle true)%py.

(** [RobotController.to_dict] *)
Definition to_dict (c : RobotController) : outcome pydict :=
  let (x, y) := get_position (_sprite_robot c) in
  let dict_file : pydict := PyDict.empty in
  let dict_file := PyDict.setitem "robot" (VDict PyDict.empty) dict_file in
  and_then (setitem_nested "robot" "x" x dict_file) (fun dict_file =>
  and_then (setitem_nested "robot" "y" y dict_file) (fun dict_file =>
  and_then (setitem_nested "robot" "direction"
                           (get_direction (_sprite_robot c)) dict_file)
           (fun dict_file => Return dict_file))).

(** [RobotController.from_dict] *)
Definition from_dict (d : pydict) : M RobotController unit :=
  (x <- lookup_or KeyError (PyDict.getitem "x" d) ;;
   y <- lookup_or KeyError (PyDict.getitem "y" d) ;;
   let pos := (x, y) in
   dir <- lookup_or KeyError (PyDict.getitem "direction" d) ;;
   modify (fun c =>
     set__sprite_robot (set_position pos (_sprite_robot c)) c) ;;
   modify (fun c =>
     set__sprite_robot (set_direction dir (_sprite_robot c)) c) ;;
   x' <- lookup_or KeyError (PyDict.getitem "x" d) ;;
   y' <- lookup_or KeyError (PyDict.getitem "y" d) ;;
   fun c =>
     match new_SimRobot x' y' with
     | Return r => (Return tt, set__robot r c)
     | Raise e => (Raise e, c)
     end)%py.

Definition creator_has_text (c : RobotController) : Prop :=
  _app_mode c = CREATOR -> exists t, _text_robot c = Some t.

End RobotController.
End Commander.

(** ** commander/sub_controller/goal_controller.py *)

Module CommanderGoal.
Import Commander.
Section GoalController.
Context `{Constants}.

Import Sprites.

(** The attributes of a [GoalController]; there is no goal sprite yet.  The
    [BaseSubController] part is modelled as for the robot controllers. *)
Record GoalController : Type := mkController {
  _toggled : bool;
  callback_runs : nat;
  _app_mode : Z;
  dict_name : string;
  _window : window;
  _ww : Z;
  _wh : Z;
  _text_goal : option Text
}.

(** [GoalController.__init__] *)
Definition __init__ (window0 : window) (app_mode : Z) : GoalController :=
  let (ww, wh) := Window.get_window_size window0 in
  if app_mode =? CREATOR then
    let text :=
      text_set_position (20, wh - 70) ANCHOR_TOP_LEFT
        (new_Text "'G' Place the goal" 0 0 30 SHORTCUT_TEXT_COLOR) in
    let w :=
      state_of (Window.on_callback CREATOR_PLACE_GOAL goal_toggle
        (state_of (Window.add_sprite "text_goal" the_text_goal 0 window0)))
    in
    mkController false 0%nat app_mode "goal" w ww wh (Some text)
  else mkController false 0%nat app_mode "goal" window0 ww wh None.

(** [GoalController.toggle]: only the [BaseSubController] part. *)
Definition toggle (call : bool) : M GoalController unit :=
  modify (fun g =>
    mkController (negb (_toggled g))
                 (if call then S (callback_runs g) else callback_runs g)
                 (_app_mode g) (dict_name g) (_window g) (_ww g) (_wh g)
                 (_text_goal g)).

(** [GoalController.loop] *)
Definition loop : M GoalController unit := ret tt.

(** [GoalController.to_dict] *)
Definition to_dict (g : GoalController) : pydict := PyDict.empty.

(** [GoalController.from_dict], which takes no mapping. *)
Definition from_dict : M GoalController unit := ret tt.

End GoalController.
End CommanderGoal.

(** ** Concrete instances

    A window of 800 by 600 pixels, rationals standing for the toolkit's
    floats, and one choice of the packages' constants. *)

Module Examples.

#[export] Instance rational_numbers : Numbers :=
  {| float := QArith_base.Q; float_of_int := QArith_base.inject_Z |}.

#[export] Instance constants : Constants := {|
  CREATOR := 0;
  MANUAL := 1;
  SHORTCUT_TEXT_COLOR := (255, 255, 255);
  SHORTCUT_TEXT_COLOR_ACTIVE := (255, 200, 0);
  ANCHOR_TOP_LEFT := 0;
  CREATOR_PLACE_ROBOT := 114;
  CREATOR_PLACE_GOAL := 103;
  MOUSE_CLICK := 1025;
  MANUAL_LEFT_INCREASE := 119;
  MANUAL_LEFT_DECREASE := 115;
  MANUAL_RIGHT_INCREASE := 111;
  MANUAL_RIGHT_DECREASE := 108;
  MANUAL_BOTH_INCREASE := 116;
  initial_direction := VInt 0
|}.

Definition QUIT : Z := 256.

(** A window with sprite names for sprites and numbers for callables. *)
Definition plain_window : Window.BaseWindow string nat :=
  Window.__init__ (800, 600) None 60 0.

Definition plain_window_with_callback : Window.BaseWindow string nat :=
  state_of (Window.on_callback 1025 7%nat plain_window).

Definition simulation_window : Simulation.window :=
  Window.__init__ (800, 600) None 60 0.

Definition commander_window : Commander.window :=
  Window.__init__ (800, 600) None 60 0.

(** Controllers as [__init__] builds them in CREATOR mode. *)
Definition simulation_controller : Simulation.RobotController :=
  Simulation.__init__ simulation_window CREATOR.

Definition commander_controller : Commander.RobotController :=
  Commander.__init__ commander_window CREATOR.

(** The same controllers after the shortcut key put them in toggle mode. *)
Definition simulation_controller_toggled : Simulation.RobotController :=
  state_of (Simulation.toggle true simulation_controller).


(** A robot record without its direction. *)
Definition record_without_direction : pydict :=
  [("x", VInt 10); ("y", VInt 20)].

End Examples.

(** ** commander/sub_controller/robot_controller.py: manual control and loop *)

Module CommanderManual.
Import Commander.
Section Manual.
Context `{Constants}.

Import Sprites.

(** The methods of the simulated robot ([motion_model/robot.py], not under
    src/) the controller calls: the four motor nudges, [set_time_delta], and
    [drive], which answers the angle and the position. *)
Variables accelerate_left slowdown_left : SimRobot -> SimRobot.
Variables accelerate_right slowdown_right : SimRobot -> SimRobot.
Variable set_time_delta : float -> SimRobot -> SimRobot.
Variable drive : SimRobot -> SimRobot * (pyval * pyval * pyval).

(** A method call on [self._robot]. *)
Definition on_robot (f : SimRobot -> SimRobot) : M RobotController unit :=
  modify (fun c => set__robot (f (_robot c)) c).

(** The closure [_motor_left(left)]; the body runs holding the mutex, which
    a single thread never finds taken. *)
Definition _motor_left (left : Z) : M RobotController unit :=
  ((if left =? -1 then on_robot slowdown_left else ret tt) ;;
   (if left =? 1 then on_robot accelerate_left else ret tt))%py.

(** The closure [_motor_right(right)] *)
Definition _motor_right (right : Z) : M RobotController unit :=
  ((if right =? -1 then on_robot slowdown_right else ret tt) ;;
   (if right =? 1 then on_robot accelerate_right else ret tt))%py.

(** The closure [_motors_both(left, right)] *)
Definition _motors_both (left right : Z) : M RobotController unit :=
  (_motor_left left ;; _motor_right right)%py.

(** [RobotController.loop]; [mouse_pos] is what [py.mouse.get_pos()]
    answers. *)
Definition loop (mouse_pos : Z * Z) (delta : float)
  : M RobotController unit :=
  (toggled <- gets is_toggled ;;
   (if toggled : bool then
      modify (fun c =>
        set__sprite_robot
          (set_position (VInt (fst mouse_pos), VInt (snd mouse_pos))
                        (_sprite_robot c)) c)
    else ret tt) ;;
   app_mode <- gets _app_mode ;;
   if negb (app_mode =? CREATOR) then
     (on_robot (set_time_delta delta) ;;
      fun c =>
        match drive (_robot c) with
        | (robot, (angle, x, y)) =>
            (Return tt,
             set__sprite_robot
               (set_direction angle
                  (set_position (x, y) (_sprite_robot c)))
               (set__robot robot c))
        end)
   else ret tt)%py.

End Manual.
End CommanderManual.

(** ** Views of the window used in the properties *)

Module WindowViews.
Import Window.
Section Views.
Variables Sprite Func : Type.
Variable QUIT : Z.

(** Some event of the batch closes the window. *)
Definition has_quit (es : list Event) : bool :=
  existsb (fun e => ev_type e =? QUIT) es.

(** What a turn of the loop does after the events: the sprites, the clock
    and the flip. *)
Definition render (w : BaseWindow Sprite Func) : list (effect Sprite Func) :=
  draw_sprites w ++ [Tick (_frame_rate w); Flip].

(** The frame rates the setter accepts. *)
Definition frame_rate_valid (w : BaseWindow Sprite Func) : Prop :=
  1 <= _frame_rate w <= 60.


End Views.
End WindowViews.

(** ** More concrete instances *)

Module MoreExamples.
Import Examples.

(** Sprites on two layers, two of them sharing layer 0. *)
Definition layered_window : Window.BaseWindow string nat :=
  state_of (Window.add_sprite "c" "C" 0
    (state_of (Window.add_sprite "b" "B" 5
      (state_of (Window.add_sprite "a" "A" 0 plain_window))))).

Definition commander_manual_controller : Commander.RobotController :=
  Commander.__init__ commander_window MANUAL.

Definition simulation_manual_controller : Simulation.RobotController :=
  Simulation.__init__ simulation_window MANUAL.

(** A full robot record, and one whose x is no number. *)
Definition full_record : pydict :=
  [("x", VInt 10); ("y", VInt 20); ("direction", VInt 90)].

Definition record_with_mapping_x : pydict :=
  [("x", VDict []); ("y", VInt 20); ("direction", VInt 90)].

(** A robot record whose x is an int no double can hold. *)
Definition record_with_huge_x : pydict :=
  [("x", VInt (10 ^ 400)); ("y", VInt 20); ("direction", VInt 90)].

(** A simulated robot that moves one unit to the right on every step. *)
Definition nudge (dx : Z) (r : Sprites.SimRobot) : Sprites.SimRobot :=
  Sprites.mkSimRobot
    (QArith_base.Qplus (fst (Sprites.sr_position r))
                       (QArith_base.inject_Z dx),
     snd (Sprites.sr_position r))
    (Sprites.sr_size r).

Definition example_drive (r : Sprites.SimRobot)
  : Sprites.SimRobot * (pyval * pyval * pyval) :=
  (nudge 1 r,
   (VInt 0, VFloat (fst (Sprites.sr_position (nudge 1 r))),
    VFloat (snd (Sprites.sr_position (nudge 1 r))))).

Definition goal_controller : CommanderGoal.GoalController :=
  CommanderGoal.__init__ (Commander._window commander_controller) CREATOR.


(** A toggled controller whose click handler somebody else removed. *)
Definition simulation_controller_unhooked : Simulation.RobotController :=
  Simulation.set__window
    (state_of (Window.remove_callback MOUSE_CLICK
                 (Simulation._window simulation_controller_toggled)))
    simulation_controller_toggled.

End MoreExamples.

(** * Properties *)

(** ** Dictionaries *)

Module PyDictFacts.
Import PyDict.
Section Facts.
Context {K V : Type} `{EqDec K}.
Implicit Types (k : K) (v : V) (d : t K V).

Lemma contains_true_iff k d :
  contains k d = true <-> exists v, getitem k d = Some v.
Proof.
  unfold contains. destruct (getitem k d) as [v|].
  - split; [eauto | reflexivity].
  - split; [discriminate | intros [v Hv]; discriminate].
Qed.

Lemma contains_false_iff k d :
  contains k d = false <-> getitem k d = None.
Proof.
  unfold contains. destruct (getitem k d); split; congruence.
Qed.

Lemma getitem_None_not_In k d :
  getitem k d = None <-> ~ In k (keys d).
Proof.
  induction d as [|[k' v'] r IH]; simpl.
  - split; auto.
  - destruct (eq_dec k k') as [->|Hne].
    + split; [discriminate | intros Hn; exfalso; apply Hn; auto].
    + rewrite IH. split.
      * intros Hn [Heq|Hin]; [congruence | auto].
      * intros Hn Hin. apply Hn. auto.
Qed.

Lemma getitem_setitem_same k v d :
  getitem k (setitem k v d) = Some v.
Proof.
  induction d as [|[k' v'] r IH]; simpl.
  - destruct (eq_dec k k); congruence.
  - destruct (eq_dec k k') as [Heq|Hne]; simpl.
    + destruct (eq_dec k k'); congruence.
    + destruct (eq_dec k k'); congruence.
Qed.

Lemma getitem_setitem_other k k' v d :
  k' <> k -> getitem k' (setitem k v d) = getitem k' d.
Proof.
  intros Hne. induction d as [|[k0 v0] r IH]; simpl.
  - destruct (eq_dec k' k); congruence.
  - destruct (eq_dec k k0) as [Heq|Hne0]; simpl.
    + subst k0. destruct (eq_dec k' k); [contradiction | reflexivity].
    + rewrite IH. reflexivity.
Qed.

Lemma keys_setitem_present k v d :
  In k (keys d) -> keys (setitem k v d) = keys d.
Proof.
  induction d as [|[k0 v0] r IH]; simpl.
  - intros [].
  - intros Hin. destruct (eq_dec k k0) as [Heq|Hne0]; simpl.
    + reflexivity.
    + f_equal. apply IH. destruct Hin; congruence.
Qed.

Lemma keys_setitem_absent k v d :
  ~ In k (keys d) -> keys (setitem k v d) = keys d ++ [k].
Proof.
  induction d as [|[k0 v0] r IH]; simpl.
  - reflexivity.
  - intros Hn. destruct (eq_dec k k0) as [Heq|Hne0]; simpl.
    + exfalso. apply Hn. auto.
    + f_equal. apply IH. intros Hin. apply Hn. auto.
Qed.

Lemma length_setitem_present k v d :
  contains k d = true -> List.length (setitem k v d) = List.length d.
Proof.
  intros Hc.
  assert (Hin : In k (keys d)).
  { destruct (in_dec eq_dec k (keys d)) as [Hin|Hn]; [assumption|].
    apply getitem_None_not_In in Hn. apply contains_false_iff in Hn.
    congruence. }
  apply keys_setitem_present with (v := v) in Hin.
  unfold keys in Hin.
  rewrite <- (length_map fst (setitem k v d)), Hin, length_map.
  reflexivity.
Qed.

Lemma wf_setitem k v d : wf d -> wf (setitem k v d).
Proof.
  unfold wf. intros Hnd.
  destruct (in_dec eq_dec k (keys d)) as [Hin|Hn].
  - rewrite keys_setitem_present by assumption. assumption.
  - rewrite keys_setitem_absent by assumption.
    apply NoDup_app; [assumption | repeat constructor; intros [] |].
    intros x Hx [Hk|[]]. subst x. contradiction.
Qed.

Lemma In_keys_remove k k' d :
  In k' (keys (remove k d)) <-> k' <> k /\ In k' (keys d).
Proof.
  induction d as [|[k0 v0] r IH]; simpl.
  - tauto.
  - destruct (eq_dec k k0) as [Heq|Hne0]; simpl.
    + rewrite IH. subst k0. split.
      * intros [Hne Hin]; auto.
      * intros [Hne [Heq|Hin]]; [congruence | auto].
    + rewrite IH. split.
      * intros [Heq|[Hne Hin]]; [subst; split; auto; congruence | auto].
      * intros [Hne [Heq|Hin]]; auto.
Qed.

Lemma wf_remove k d : wf d -> wf (remove k d).
Proof.
  unfold wf. induction d as [|[k0 v0] r IH]; simpl; intros Hnd.
  - constructor.
  - inversion Hnd as [|? ? Hnin Hnd']; subst.
    destruct (eq_dec k k0) as [Heq|Hne0]; simpl.
    + auto.
    + constructor; [| auto].
      intros Hin. apply In_keys_remove in Hin. tauto.
Qed.

Lemma getitem_remove_same k d : getitem k (remove k d) = None.
Proof.
  apply getitem_None_not_In. intros Hin.
  apply In_keys_remove in Hin. tauto.
Qed.

Lemma getitem_remove_other k k' d :
  k' <> k -> getitem k' (remove k d) = getitem k' d.
Proof.
  intros Hne. induction d as [|[k0 v0] r IH]; simpl.
  - reflexivity.
  - destruct (eq_dec k k0) as [Heq|Hne0]; simpl.
    + subst k0. destruct (eq_dec k' k); [contradiction | assumption].
    + rewrite IH. reflexivity.
Qed.

Lemma remove_absent k d : getitem k d = None -> remove k d = d.
Proof.
  induction d as [|[k0 v0] r IH]; simpl.
  - reflexivity.
  - destruct (eq_dec k k0) as [Heq|Hne0].
    + discriminate.
    + intros Hg. f_equal. auto.
Qed.

Lemma count_absent k d : ~ In k (keys d) -> count k d = 0%nat.
Proof.
  unfold count. induction d as [|[k0 v0] r IH]; simpl.
  - reflexivity.
  - intros Hn. destruct (eq_dec k k0) as [Heq|Hne0]; simpl.
    + exfalso. apply Hn. auto.
    + apply IH. intros Hin. apply Hn. auto.
Qed.

Lemma count_wf_le_1 k d : wf d -> (count k d <= 1)%nat.
Proof.
  unfold wf. induction d as [|[k0 v0] r IH]; simpl; intros Hnd.
  - unfold count. simpl. lia.
  - inversion Hnd as [|? ? Hnin Hnd']; subst.
    unfold count in *. simpl.
    destruct (eq_dec k k0) as [Heq|Hne0]; simpl.
    + subst k0. pose proof (count_absent k r Hnin) as Hc.
      unfold count in Hc. rewrite Hc. lia.
    + auto.
Qed.

Lemma count_contains_wf k d :
  wf d -> contains k d = true -> count k d = 1%nat.
Proof.
  unfold wf. induction d as [|[k0 v0] r IH]; simpl; intros Hnd Hc.
  - discriminate.
  - inversion Hnd as [|? ? Hnin Hnd']; subst.
    unfold contains in Hc. simpl in Hc.
    unfold count in *. simpl.
    destruct (eq_dec k k0) as [Heq|Hne0]; simpl.
    + subst k0. pose proof (count_absent k r Hnin) as Hc'.
      unfold count in Hc'. rewrite Hc'. reflexivity.
    + apply IH; assumption.
Qed.

Lemma length_remove_wf k d :
  wf d -> contains k d = true ->
  S (List.length (remove k d)) = List.length d.
Proof.
  unfold wf. induction d as [|[k0 v0] r IH]; simpl; intros Hnd Hc.
  - discriminate.
  - inversion Hnd as [|? ? Hnin Hnd']; subst.
    unfold contains in Hc. simpl in Hc.
    destruct (eq_dec k k0) as [Heq|Hne0]; simpl.
    + subst k0. apply getitem_None_not_In in Hnin.
      rewrite (remove_absent _ _ Hnin). reflexivity.
    + f_equal. apply IH; assumption.
Qed.


Lemma getitem_Some_In_keys k v d :
  getitem k d = Some v -> In k (keys d).
Proof.
  intros Hg. destruct (in_dec eq_dec k (keys d)) as [Hin|Hn]; [exact Hin |].
  apply getitem_None_not_In in Hn. congruence.
Qed.

(** With unique keys, the values are what the lookups find. *)
Lemma In_values_iff_getitem v d :
  wf d -> (In v (values d) <-> exists k, getitem k d = Some v).
Proof.
  unfold wf. induction d as [|[k0 v0] r IH]; simpl; intros Hnd.
  - split; [intros [] | intros [k Hk]; discriminate].
  - inversion Hnd as [|? ? Hnin Hnd']; subst. split.
    + intros [Heq | Hin].
      * exists k0. destruct (eq_dec k0 k0); congruence.
      * apply (IH Hnd') in Hin. destruct Hin as [k Hk]. exists k.
        destruct (eq_dec k k0) as [->|Hne]; [| exact Hk].
        exfalso. apply Hnin. eapply getitem_Some_In_keys, Hk.
    + intros [k Hk]. destruct (eq_dec k k0) as [Heq|Hne].
      * left. congruence.
      * right. apply (IH Hnd'). eauto.
Qed.

End Facts.
End PyDictFacts.

(** ** Sorting *)

Section SortFacts.
Context {A : Type}.
Variable key : A -> Z.

(** The order [reverse=True] produces: keys never grow along the list. *)
Definition key_desc (a b : A) : Prop := key b <= key a.

Lemma sort_insert_perm a l :
  Permutation (sort_insert key true a l) (a :: l).
Proof.
  induction l as [|b r IH]; simpl.
  - apply Permutation_refl.
  - unfold goes_before. destruct (key b <=? key a).
    + apply Permutation_refl.
    + eapply perm_trans; [apply perm_skip, IH | apply perm_swap].
Qed.

Lemma list_sort_perm l : Permutation (list_sort key true l) l.
Proof.
  induction l as [|a r IH]; simpl.
  - constructor.
  - eapply perm_trans; [apply sort_insert_perm | apply perm_skip, IH].
Qed.

Lemma sort_insert_sorted a l :
  StronglySorted key_desc l ->
  StronglySorted key_desc (sort_insert key true a l).
Proof.
  induction l as [|b r IH]; simpl; intros Hs.
  - repeat constructor.
  - inversion Hs as [|? ? Hr Hall]; subst.
    unfold goes_before. destruct (key b <=? key a) eqn:Hcmp.
    + apply Z.leb_le in Hcmp. constructor; [assumption|].
      constructor; [exact Hcmp|].
      eapply Forall_impl; [| exact Hall].
      intros c Hc. unfold key_desc in *. lia.
    + apply Z.leb_gt in Hcmp. constructor; [auto|].
      eapply Permutation_Forall.
      * apply Permutation_sym, sort_insert_perm.
      * constructor; [unfold key_desc; lia | assumption].
Qed.

Lemma list_sort_sorted l : StronglySorted key_desc (list_sort key true l).
Proof.
  induction l as [|a r IH]; simpl.
  - constructor.
  - apply sort_insert_sorted, IH.
Qed.

End SortFacts.

(** ** The window *)

Module WindowFacts.
Import Window.
Section Facts.
Variables Sprite Func : Type.
Variable QUIT : Z.

Local Abbreviation window := (BaseWindow Sprite Func).
Local Abbreviation reachable := (@reachable Sprite Func QUIT).
Local Abbreviation event := (@event Sprite Func QUIT).
Local Abbreviation handle_events := (@handle_events Sprite Func QUIT).
Local Abbreviation frame := (@frame Sprite Func QUIT).
Local Abbreviation main_loop := (@main_loop Sprite Func QUIT).
Local Abbreviation start := (@start Sprite Func QUIT).

(** [w'] differs from [w] in the [_running] flag at most. *)
Definition same_but_running (w w' : window) : Prop :=
  exists b, w' = set__running b w.

Lemma same_but_running_refl w : same_but_running w w.
Proof. exists (_running w). destruct w; reflexivity. Qed.

Lemma same_but_running_trans w1 w2 w3 :
  same_but_running w1 w2 -> same_but_running w2 w3 ->
  same_but_running w1 w3.
Proof.
  intros [b1 ->] [b2 ->]. exists b2. destruct w1; reflexivity.
Qed.

Lemma same_but_running_invariant w w' :
  same_but_running w w' -> invariant w -> invariant w'.
Proof. intros [b ->]. destruct w; exact (fun h => h). Qed.

(** Handling an event never raises, invokes at most the callback
    registered for the event's type, and touches [_running] only. *)
Lemma event_runs e w :
  exists tr,
    event e w = (Return tr, state_of (event e w))
    /\ same_but_running w (state_of (event e w))
    /\ (tr = []
        \/ exists f, tr = [Call f]
                     /\ PyDict.getitem (ev_type e) (_callbacks w) = Some f).
Proof.
  unfold Window.event.
  destruct (ev_type e =? QUIT) eqn:Hq.
  - apply Z.eqb_eq in Hq. rewrite Hq.
    unfold bind, modify, gets, state_of; simpl.
    unfold PyDict.contains.
    destruct (PyDict.getitem QUIT (_callbacks w)) as [f|] eqn:Hg; simpl.
    + exists [Call f]. split; [reflexivity | split].
      * exists false. reflexivity.
      * right. exists f. split; [reflexivity | reflexivity].
    + exists []. split; [reflexivity | split].
      * exists false. reflexivity.
      * now left.
  - exists []. split; [reflexivity | split].
    + apply same_but_running_refl.
    + now left.
Qed.

Lemma handle_events_runs es w :
  exists tr,
    handle_events es w = (Return tr, state_of (handle_events es w))
    /\ same_but_running w (state_of (handle_events es w)).
Proof.
  revert w. induction es as [|e r IH]; intros w; simpl.
  - exists []. split; [reflexivity | apply same_but_running_refl].
  - destruct (event_runs e w) as (tr & He & Hs & _).
    unfold bind, state_of in *. rewrite He. simpl.
    destruct (IH (snd (event e w))) as (tr' & Hr & Hs').
    rewrite Hr. simpl. exists (tr ++ tr'). split; [reflexivity|].
    eapply same_but_running_trans; eassumption.
Qed.

Lemma frame_runs es w :
  exists tr,
    frame es w
    = (Return (tr ++ draw_sprites w ++ [Tick (_frame_rate w); Flip]),
       state_of (frame es w))
    /\ same_but_running w (state_of (frame es w)).
Proof.
  destruct (handle_events_runs es w) as (tr & Hr & Hs).
  unfold Window.frame, bind, gets, ret, state_of in *.
  rewrite Hr. simpl. exists tr.
  destruct Hs as [b Hb]. rewrite Hb.
  split; [reflexivity | exists b; reflexivity].
Qed.

Lemma main_loop_runs input w :
  exists tr,
    main_loop input w = (Return tr, state_of (main_loop input w))
    /\ same_but_running w (state_of (main_loop input w)).
Proof.
  revert w. induction input as [|es rest IH]; intros w; simpl.
  - exists []. split; [reflexivity | apply same_but_running_refl].
  - unfold bind, gets, state_of. simpl.
    destruct (_running w).
    + destruct (frame_runs es w) as (tr & Hf & Hs).
      unfold state_of in *. rewrite Hf. simpl.
      destruct (IH (snd (frame es w))) as (tr' & Hr & Hs').
      unfold state_of in *. rewrite Hr. simpl.
      eexists. split; [reflexivity|].
      eapply same_but_running_trans; eassumption.
    + exists []. split; [reflexivity | apply same_but_running_refl].
Qed.

Lemma start_runs input w :
  same_but_running w (state_of (start input w)).
Proof.
  unfold Window.start, bind, modify, state_of. simpl.
  destruct (main_loop_runs input (set__running true w)) as (tr & Hr & Hs).
  unfold state_of in *. rewrite Hr. simpl.
  eapply same_but_running_trans; [| exact Hs].
  exists true. reflexivity.
Qed.

Lemma init_invariant ws da fr fl :
  invariant (@__init__ Sprite Func ws da fr fl).
Proof.
  repeat split; simpl; constructor.
Qed.

Lemma add_sprite_invariant name s z (w : window) :
  invariant w -> invariant (state_of (add_sprite name s z w)).
Proof.
  intros (Hc & Hs & _). repeat split; simpl.
  - exact Hc.
  - apply PyDictFacts.wf_setitem, Hs.
Qed.

Lemma remove_sprite_invariant name (w : window) :
  invariant w -> invariant (state_of (remove_sprite name w)).
Proof.
  intros (Hc & Hs & _). repeat split; simpl.
  - exact Hc.
  - apply PyDictFacts.wf_remove, Hs.
Qed.

Lemma on_callback_invariant ty f (w : window) :
  invariant w -> invariant (state_of (on_callback ty f w)).
Proof.
  intros (Hc & Hs & Hl). repeat split; simpl.
  - apply PyDictFacts.wf_setitem, Hc.
  - exact Hs.
  - exact Hl.
Qed.

Lemma remove_callback_invariant ty (w : window) :
  invariant w -> invariant (state_of (remove_callback ty w)).
Proof.
  intros (Hc & Hs & Hl).
  unfold remove_callback, PyDict.delitem, state_of.
  destruct (PyDict.contains ty (_callbacks w)); simpl.
  - repeat split; simpl; [apply PyDictFacts.wf_remove, Hc | exact Hs | exact Hl].
  - repeat split; assumption.
Qed.

Lemma frame_rate_setter_invariant fr (w : window) :
  invariant w -> invariant (state_of (frame_rate_setter fr w)).
Proof.
  intros Hi. unfold frame_rate_setter, state_of.
  destruct ((fr <? 1) || (fr >? 60)); simpl; [exact Hi|].
  destruct w; exact Hi.
Qed.

Lemma step_invariant (w w' : window) :
  @step Sprite Func QUIT w w' -> invariant w -> invariant w'.
Proof.
  intros Hstep Hi. destruct Hstep.
  - now apply frame_rate_setter_invariant.
  - now apply add_sprite_invariant.
  - now apply remove_sprite_invariant.
  - now apply on_callback_invariant.
  - now apply remove_callback_invariant.
  - destruct (event_runs e w) as (tr & _ & Hs & _).
    eapply same_but_running_invariant; eassumption.
  - eapply same_but_running_invariant; [apply start_runs | assumption].
Qed.

Lemma reachable_invariant w : reachable w -> invariant w.
Proof.
  induction 1 as [ws da fr fl | w w' _ IH Hstep].
  - apply init_invariant.
  - eapply step_invariant; eassumption.
Qed.

(** What a turn of the loop leaves behind: the callbacks the events
    invoked, then one [Draw] per entry of the sprite list, in its order, then
    the clock tick and the flip. *)
Lemma event_trace_calls e w x :
  In x (match result_of (event e w) with Return tr => tr | Raise _ => [] end)
  -> exists f, x = Call f.
Proof.
  destruct (event_runs e w) as (tr & He & _ & Htr).
  unfold result_of. rewrite He. simpl.
  destruct Htr as [-> | (f & -> & _)].
  - intros [].
  - intros [<-|[]]. eauto.
Qed.

Lemma handle_events_trace es w :
  exists tr,
    handle_events es w = (Return tr, state_of (handle_events es w))
    /\ forall x, In x tr -> exists f, x = Call f.
Proof.
  revert w. induction es as [|e r IH]; intros w; simpl.
  - exists []. split; [reflexivity | intros x []].
  - destruct (event_runs e w) as (tr & He & _ & _).
    pose proof (event_trace_calls e w) as Hcalls.
    unfold bind, state_of, result_of in *. rewrite He in *. simpl in *.
    destruct (IH (snd (event e w))) as (tr' & Hr & Hcalls').
    rewrite Hr. simpl. exists (tr ++ tr'). split; [reflexivity|].
    intros x Hin. apply in_app_or in Hin. destruct Hin; auto.
Qed.

Lemma frame_trace es w :
  exists tr,
    result_of (frame es w)
    = Return (tr ++ map (fun entry => Draw (snd entry)) (_sprite_list w)
                 ++ [Tick (_frame_rate w); Flip])
    /\ forall x, In x tr -> exists f, x = Call f.
Proof.
  destruct (handle_events_trace es w) as (tr & Hr & Hcalls).
  destruct (handle_events_runs es w) as (tr0 & _ & [b Hb]).
  unfold Window.frame, bind, gets, ret, state_of, result_of in *.
  rewrite Hr. simpl. exists tr. rewrite Hb. simpl.
  split; [reflexivity | exact Hcalls].
Qed.

(** C4: the [frame_rate] setter raises a [ValueError] exactly when the
    given frame rate is less than 1 or greater than 60, and then stores
    nothing; for a frame rate from 1 to 60 it returns without raising and
    the stored frame rate is the given one. *)
Theorem frame_rate_setter_valid_range (w : window) (fr : Z) :
  (result_of (frame_rate_setter fr w) = Raise ValueError
   <-> fr < 1 \/ fr > 60)
  /\ (fr < 1 \/ fr > 60 -> state_of (frame_rate_setter fr w) = w)
  /\ (1 <= fr <= 60 ->
      frame_rate_setter fr w = (Return tt, set__frame_rate fr w)
      /\ frame_rate (state_of (frame_rate_setter fr w)) = fr).
Proof.
  unfold frame_rate_setter, result_of, state_of.
  destruct ((fr <? 1) || (fr >? 60)) eqn:Hb.
  - apply orb_true_iff in Hb. rewrite Z.ltb_lt, Z.gtb_gt in Hb.
    simpl. split; [tauto | split; [reflexivity |]].
    intros Hr. exfalso. lia.
  - apply orb_false_iff in Hb. rewrite Z.ltb_ge, Z.gtb_ltb, Z.ltb_ge in Hb.
    simpl. split; [| split].
    + split; [discriminate | intros Hr; exfalso; lia].
    + intros Hr. exfalso. lia.
    + intros _. split; reflexivity.
Qed.

(** C7: in every window a program can hold, the callback table has at most
    one function per event type; [on_callback] for a type leaves exactly one
    entry for it, holding the new function, and the table does not grow when
    the type was registered before; the tables after [on_callback] and after
    [remove_callback] again have at most one function per type; and handling
    an event invokes at most one callback, the one registered for the
    event's type. *)
Theorem one_callback_per_event_type (w : window) :
  reachable w ->
  (forall ty, (PyDict.count ty (_callbacks w) <= 1)%nat)
  /\ (forall ty f,
        let w' := state_of (on_callback ty f w) in
        on_callback ty f w = (Return tt, w')
        /\ PyDict.getitem ty (_callbacks w') = Some f
        /\ PyDict.count ty (_callbacks w') = 1%nat
        /\ (PyDict.contains ty (_callbacks w) = true ->
            List.length (_callbacks w') = List.length (_callbacks w))
        /\ (forall ty', (PyDict.count ty' (_callbacks w') <= 1)%nat))
  /\ (forall ty ty',
        (PyDict.count ty'
           (_callbacks (state_of (remove_callback ty w))) <= 1)%nat)
  /\ (forall e,
        exists tr,
          result_of (event e w) = Return tr
          /\ (List.length tr <= 1)%nat
          /\ (forall f, In (Call f) tr ->
                PyDict.getitem (ev_type e) (_callbacks w) = Some f)).
Proof.
  intros Hreach.
  pose proof (reachable_invariant Hreach) as Hinv.
  split; [| split; [| split]].
  - intros ty. apply PyDictFacts.count_wf_le_1. apply Hinv.
  - intros ty f w'.
    pose proof (on_callback_invariant ty f Hinv) as (Hc' & _).
    fold w' in Hc'.
    assert (Hget : PyDict.getitem ty (_callbacks w') = Some f)
      by apply PyDictFacts.getitem_setitem_same.
    split; [reflexivity | split; [exact Hget | split; [| split]]].
    + apply PyDictFacts.count_contains_wf; [exact Hc'|].
      unfold PyDict.contains. rewrite Hget. reflexivity.
    + intros Hc. apply PyDictFacts.length_setitem_present, Hc.
    + intros ty'. apply PyDictFacts.count_wf_le_1, Hc'.
  - intros ty ty'. apply PyDictFacts.count_wf_le_1.
    apply (remove_callback_invariant ty Hinv).
  - intros e. destruct (event_runs e w) as (tr & He & _ & Htr).
    exists tr. unfold result_of. rewrite He.
    split; [reflexivity|].
    destruct Htr as [-> | (f & -> & Hf)].
    + split; [simpl; lia | intros f []].
    + split; [simpl; lia|].
      intros g [Hg|[]]. congruence.
Qed.

(** C8: [add_sprite] registers the sprite under its name and zindex and
    [remove_sprite] takes the name out, both leaving every other name's
    entry as it was; afterwards the sprite list holds exactly the entries
    of the sprite table, ordered by zindex with the highest first, and a
    turn of the render loop draws the sprites in the order of that list.
    In a window a program can hold, the list after [add_sprite] thus has
    the added entry and the entries registered before under other names,
    and after [remove_sprite] the entries registered before under other
    names, and nothing else. *)
Theorem sprite_list_sorted_by_zindex (w : window) (name : string)
        (s : Sprite) (z : Z) :
  let sorted_and_drawn (w' : window) :=
    Permutation (_sprite_list w') (PyDict.values (_sprites w'))
    /\ StronglySorted (@zindex_desc Sprite) (_sprite_list w')
    /\ (forall es, exists tr,
          result_of (frame es w')
          = Return (tr ++ map (fun entry => Draw (snd entry))
                              (_sprite_list w')
                       ++ [Tick (_frame_rate w'); Flip])
          /\ forall x, In x tr -> exists f, x = Call f) in
  (add_sprite name s z w = (Return tt, state_of (add_sprite name s z w))
   /\ PyDict.getitem name (_sprites (state_of (add_sprite name s z w)))
      = Some (z, s)
   /\ sorted_and_drawn (state_of (add_sprite name s z w))
   /\ _sprites (state_of (add_sprite name s z w))
      = PyDict.setitem name (z, s) (_sprites w)
   /\ (forall name', name' <> name ->
         PyDict.getitem name' (_sprites (state_of (add_sprite name s z w)))
         = PyDict.getitem name' (_sprites w))
   /\ (reachable w ->
       forall entry,
         In entry (_sprite_list (state_of (add_sprite name s z w)))
         <-> entry = (z, s)
             \/ exists name', name' <> name
                  /\ PyDict.getitem name' (_sprites w) = Some entry))
  /\ (remove_sprite name w = (Return tt, state_of (remove_sprite name w))
      /\ PyDict.getitem name (_sprites (state_of (remove_sprite name w)))
         = None
      /\ sorted_and_drawn (state_of (remove_sprite name w))
      /\ _sprites (state_of (remove_sprite name w))
         = PyDict.remove name (_sprites w)
      /\ (forall name', name' <> name ->
            PyDict.getitem name' (_sprites (state_of (remove_sprite name w)))
            = PyDict.getitem name' (_sprites w))
      /\ (reachable w ->
          forall entry,
            In entry (_sprite_list (state_of (remove_sprite name w)))
            <-> exists name', name' <> name
                  /\ PyDict.getitem name' (_sprites w) = Some entry)).
Proof.
  assert (Hgen : forall w' : window,
             sprite_list_current w' ->
             Permutation (_sprite_list w') (PyDict.values (_sprites w'))
             /\ StronglySorted (@zindex_desc Sprite) (_sprite_list w')
             /\ (forall es, exists tr,
                   result_of (frame es w')
                   = Return (tr ++ map (fun entry => Draw (snd entry))
                                       (_sprite_list w')
                                ++ [Tick (_frame_rate w'); Flip])
                   /\ forall x, In x tr -> exists f, x = Call f)).
  { intros w' Hcur. split; [| split].
    - rewrite Hcur. apply list_sort_perm.
    - rewrite Hcur.
      apply (list_sort_sorted (fun sprite : Z * Sprite => fst sprite)).
    - intros es. apply frame_trace. }
  assert (Hmem : forall w' : window,
             sprite_list_current w' -> PyDict.wf (_sprites w') ->
             forall entry,
               In entry (_sprite_list w')
               <-> exists name', PyDict.getitem name' (_sprites w')
                                 = Some entry).
  { intros w' Hcur Hwf entry.
    rewrite <- (PyDictFacts.In_values_iff_getitem entry Hwf).
    rewrite Hcur. split; apply Permutation_in.
    - apply list_sort_perm.
    - apply Permutation_sym, list_sort_perm. }
  intros sorted_and_drawn. subst sorted_and_drawn. cbv beta.
  split; (split; [reflexivity | split; [| split; [| split; [| split]]]]).
  - apply PyDictFacts.getitem_setitem_same.
  - apply Hgen. reflexivity.
  - reflexivity.
  - intros name' Hne. apply PyDictFacts.getitem_setitem_other, Hne.
  - intros Hreach entry.
    pose proof (reachable_invariant Hreach) as Hinv.
    pose proof (add_sprite_invariant name s z Hinv) as (_ & Hwf' & Hcur').
    rewrite (Hmem _ Hcur' Hwf'). simpl. split.
    + intros [name' Hget].
      destruct (string_dec name' name) as [->|Hne].
      * rewrite PyDictFacts.getitem_setitem_same in Hget. left. congruence.
      * rewrite PyDictFacts.getitem_setitem_other in Hget by exact Hne.
        right. eauto.
    + intros [-> | (name' & Hne & Hget)].
      * exists name. apply PyDictFacts.getitem_setitem_same.
      * exists name'.
        rewrite PyDictFacts.getitem_setitem_other by exact Hne. exact Hget.
  - apply PyDictFacts.getitem_remove_same.
  - apply Hgen. reflexivity.
  - reflexivity.
  - intros name' Hne. apply PyDictFacts.getitem_remove_other, Hne.
  - intros Hreach entry.
    pose proof (reachable_invariant Hreach) as Hinv.
    pose proof (remove_sprite_invariant name Hinv) as (_ & Hwf' & Hcur').
    rewrite (Hmem _ Hcur' Hwf'). simpl. unfold PyDict.pop_default. split.
    + intros [name' Hget].
      destruct (string_dec name' name) as [->|Hne].
      * rewrite PyDictFacts.getitem_remove_same in Hget. discriminate.
      * rewrite PyDictFacts.getitem_remove_other in Hget by exact Hne.
        eauto.
    + intros (name' & Hne & Hget). exists name'.
      rewrite PyDictFacts.getitem_remove_other by exact Hne. exact Hget.
Qed.

(** C9: for a name that is not registered as a sprite, [remove_sprite]
    returns without raising and leaves the window, with its sprite table
    and its sorted sprite list, as it was. *)
Theorem remove_sprite_unregistered_noop (w : window) (name : string) :
  reachable w ->
  PyDict.getitem name (_sprites w) = None ->
  remove_sprite name w = (Return tt, w)
  /\ _sprites (state_of (remove_sprite name w)) = _sprites w
  /\ _sprite_list (state_of (remove_sprite name w)) = _sprite_list w.
Proof.
  intros Hreach Hnone.
  pose proof (reachable_invariant Hreach) as (_ & _ & Hcur).
  assert (Heq : remove_sprite name w = (Return tt, w)).
  { unfold remove_sprite, _update_sprite_list, bind, modify,
      PyDict.pop_default. simpl.
    rewrite (PyDictFacts.remove_absent _ _ Hnone).
    rewrite <- Hcur. destruct w; reflexivity. }
  rewrite Heq. auto.
Qed.

(** C10: [remove_callback] for an event type without a registered callback
    raises a [KeyError] and changes nothing; for a registered type it
    returns, the entry of that type is gone, it is the only entry that went,
    and the callbacks of all other types are as before. *)
Theorem remove_callback_registered_or_KeyError (w : window) (ty : Z) :
  reachable w ->
  (PyDict.contains ty (_callbacks w) = false ->
   remove_callback ty w = (Raise KeyError, w))
  /\ (PyDict.contains ty (_callbacks w) = true ->
      let w' := state_of (remove_callback ty w) in
      remove_callback ty w = (Return tt, w')
      /\ w' = set__callbacks (PyDict.remove ty (_callbacks w)) w
      /\ PyDict.getitem ty (_callbacks w') = None
      /\ S (List.length (_callbacks w')) = List.length (_callbacks w)
      /\ (forall ty', ty' <> ty ->
            PyDict.getitem ty' (_callbacks w')
            = PyDict.getitem ty' (_callbacks w))).
Proof.
  intros Hreach.
  pose proof (reachable_invariant Hreach) as (Hwf & _ & _).
  unfold remove_callback, PyDict.delitem, state_of.
  split; intros Hc; rewrite Hc; simpl.
  - reflexivity.
  - split; [reflexivity | split; [reflexivity | split; [| split]]].
    + apply PyDictFacts.getitem_remove_same.
    + apply PyDictFacts.length_remove_wf; assumption.
    + intros ty' Hne. apply PyDictFacts.getitem_remove_other, Hne.
Qed.

End Facts.

Import Examples.

Lemma plain_window_reachable :
  @reachable string nat QUIT plain_window.
Proof. apply reach_init. Defined.

Lemma plain_window_with_callback_reachable :
  @reachable string nat QUIT plain_window_with_callback.
Proof.
  eapply reach_step; [apply plain_window_reachable |].
  apply step_on_callback.
Defined.

Lemma frame_rate_setter_valid_range_witness :
  1 <= 30 <= 60
  /\ frame_rate (state_of (frame_rate_setter 30 plain_window)) = 30.
Proof.
  split; [lia |].
  apply (@frame_rate_setter_valid_range string nat plain_window 30). lia.
Defined.

Lemma one_callback_per_event_type_witness :
  @reachable string nat QUIT plain_window_with_callback
  /\ forall ty,
       (PyDict.count ty (_callbacks plain_window_with_callback) <= 1)%nat.
Proof.
  split; [apply plain_window_with_callback_reachable |].
  apply (@one_callback_per_event_type string nat QUIT
           plain_window_with_callback
           plain_window_with_callback_reachable).
Defined.

Lemma sprite_list_sorted_by_zindex_witness :
  @reachable string nat QUIT plain_window_with_callback
  /\ forall entry,
       In entry
          (_sprite_list
             (state_of (add_sprite "a" "A" 1 plain_window_with_callback)))
       <-> entry = (1, "A")
           \/ exists name',
                name' <> "a"
                /\ PyDict.getitem name' (_sprites plain_window_with_callback)
                   = Some entry.
Proof.
  split; [apply plain_window_with_callback_reachable |].
  exact (proj2 (proj2 (proj2 (proj2 (proj2 (proj1
           (@sprite_list_sorted_by_zindex string nat QUIT
              plain_window_with_callback "a" "A" 1))))))
           plain_window_with_callback_reachable).
Defined.

Lemma remove_sprite_unregistered_noop_witness :
  @reachable string nat QUIT plain_window_with_callback
  /\ PyDict.getitem "sprite_robot" (_sprites plain_window_with_callback)
     = None
  /\ remove_sprite "sprite_robot" plain_window_with_callback
     = (Return tt, plain_window_with_callback).
Proof.
  split; [apply plain_window_with_callback_reachable |].
  split; [reflexivity |].
  apply (@remove_sprite_unregistered_noop string nat QUIT
           plain_window_with_callback "sprite_robot"
           plain_window_with_callback_reachable).
  reflexivity.
Defined.

Lemma remove_callback_registered_or_KeyError_witness :
  @reachable string nat QUIT plain_window_with_callback
  /\ PyDict.contains 7 (_callbacks plain_window_with_callback) = false
  /\ remove_callback 7 plain_window_with_callback
     = (Raise KeyError, plain_window_with_callback).
Proof.
  split; [apply plain_window_with_callback_reachable |].
  split; [reflexivity |].
  apply (@remove_callback_registered_or_KeyError string nat QUIT
           plain_window_with_callback 7
           plain_window_with_callback_reachable).
  reflexivity.
Defined.

End WindowFacts.

(** ** The simulation package's robot controller *)

Module SimulationFacts.
Import Sprites Simulation.
Section Facts.
Context `{Constants}.

Ltac run_method :=
  unfold toggle, base_toggle, _on_mouse_click, from_dict, loop, on_window,
    on_text_robot, is_toggled, Window.on_callback, Window.remove_callback,
    PyDict.delitem, lookup_or, bind, modify, gets, ret, raise, state_of,
    result_of;
  simpl.

(** The persisted document of a controller. *)
Lemma sim_to_dict_document (c : RobotController) :
  to_dict c
  = Return [("robot",
             VDict [("x", rb_x (_robot c)); ("y", rb_y (_robot c));
                    ("direction", rb_direction (_robot c))])].
Proof. reflexivity. Qed.

(** Whatever [toggle] does and however it ends, the flag is flipped, and
    the marker, the mode and the dimensions stay. *)
Lemma sim_toggle_flips call (c : RobotController) :
  _toggled (state_of (toggle call c)) = negb (_toggled c)
  /\ _robot (state_of (toggle call c)) = _robot c
  /\ _app_mode (state_of (toggle call c)) = _app_mode c
  /\ (forall t, _text_robot c = Some t ->
      exists t', _text_robot (state_of (toggle call c)) = Some t').
Proof.
  destruct c as [tg runs mode name w ww wh robot text].
  run_method.
  destruct tg, call, text as [t|]; simpl;
    try destruct (PyDict.contains MOUSE_CLICK (Window._callbacks w));
    simpl; repeat split; intros; try discriminate; eauto.
Qed.

(** However leaving toggle mode ends, the click handler is off the
    window afterwards. *)
Lemma sim_toggle_off_unhooks call (c : RobotController) :
  _toggled c = true ->
  PyDict.contains MOUSE_CLICK
    (Window._callbacks (_window (state_of (toggle call c)))) = false.
Proof.
  destruct c as [tg runs mode name w ww wh robot text]. simpl.
  intros ->.
  destruct (PyDict.getitem MOUSE_CLICK (Window._callbacks w)) as [f|] eqn:Hg;
    run_method; unfold PyDict.contains;
    destruct call, text as [t|]; simpl; rewrite Hg; simpl;
    rewrite ?PyDictFacts.getitem_remove_same, ?Hg; reflexivity.
Qed.

(** Entering toggle mode: the click handler is registered and the
    shortcut text is highlighted. *)
Lemma sim_toggle_on call (c : RobotController) t :
  _toggled c = false ->
  _text_robot c = Some t ->
  exists c',
    toggle call c = (Return tt, c')
    /\ _toggled c' = true
    /\ _text_robot c' = Some (set_color SHORTCUT_TEXT_COLOR_ACTIVE t)
    /\ Window._callbacks (_window c')
       = PyDict.setitem MOUSE_CLICK self__on_mouse_click
                        (Window._callbacks (_window c))
    /\ _app_mode c' = _app_mode c
    /\ _robot c' = _robot c.
Proof.
  destruct c as [tg runs mode name w ww wh robot text]. simpl.
  intros -> ->. run_method.
  destruct call; simpl; eexists; repeat split.
Qed.

(** Leaving toggle mode while the click handler is registered: the
    handler is taken out and the shortcut text gets its plain color. *)
Lemma sim_toggle_off call (c : RobotController) t :
  _toggled c = true ->
  _text_robot c = Some t ->
  PyDict.contains MOUSE_CLICK (Window._callbacks (_window c)) = true ->
  exists c',
    toggle call c = (Return tt, c')
    /\ _toggled c' = false
    /\ _text_robot c' = Some (set_color SHORTCUT_TEXT_COLOR t)
    /\ Window._callbacks (_window c')
       = PyDict.remove MOUSE_CLICK (Window._callbacks (_window c))
    /\ _app_mode c' = _app_mode c
    /\ _robot c' = _robot c.
Proof.
  destruct c as [tg runs mode name w ww wh robot text]. simpl.
  intros -> -> Hc. run_method.
  unfold PyDict.contains in *. simpl in Hc.
  destruct call; simpl;
    (destruct (PyDict.getitem MOUSE_CLICK (Window._callbacks w));
     [| discriminate]);
    simpl; eexists; repeat split.
Qed.

Lemma sim_init_creator_has_text w app_mode :
  creator_has_text (__init__ w app_mode).
Proof.
  unfold creator_has_text, __init__.
  destruct (Window.get_window_size w) as [ww wh].
  destruct (app_mode =? CREATOR) eqn:Hm; simpl.
  - eauto.
  - intros Heq. apply Z.eqb_neq in Hm. contradiction.
Qed.

Lemma sim_toggle_creator_has_text call c :
  creator_has_text c -> creator_has_text (state_of (toggle call c)).
Proof.
  unfold creator_has_text. intros Hinv.
  destruct (sim_toggle_flips call c) as (_ & _ & Hmode & Htext).
  rewrite Hmode. intros Hm. destruct (Hinv Hm) as [t Ht]. eauto.
Qed.

Lemma sim_from_dict_creator_has_text d c :
  creator_has_text c -> creator_has_text (state_of (from_dict d c)).
Proof.
  unfold creator_has_text.
  destruct c as [tg runs mode name w ww wh robot text]. run_method.
  destruct (PyDict.getitem "x" d), (PyDict.getitem "y" d),
    (PyDict.getitem "direction" d); simpl; auto.
Qed.

Lemma loop_creator_has_text pos c :
  creator_has_text c -> creator_has_text (state_of (loop pos c)).
Proof.
  unfold creator_has_text.
  destruct c as [tg runs mode name w ww wh robot text]. run_method.
  destruct tg; simpl; auto.
Qed.

Lemma sim_on_mouse_click_creator_has_text pos c :
  creator_has_text c -> creator_has_text (state_of (_on_mouse_click pos c)).
Proof.
  intros Hinv. unfold _on_mouse_click, bind, modify. simpl.
  apply sim_toggle_creator_has_text.
  destruct c; exact Hinv.
Qed.

End Facts.
End SimulationFacts.

(** ** The commander package's robot controller *)

Module CommanderFacts.
Import Sprites Commander.
Section Facts.
Context `{Constants}.

Ltac run_method :=
  unfold toggle, base_toggle, _on_mouse_click, from_dict, on_window,
    on_text_robot, is_toggled, Window.on_callback, Window.remove_callback,
    PyDict.delitem, lookup_or, bind, modify, gets, ret, raise, state_of,
    result_of;
  simpl.

Lemma cmd_to_dict_document (c : RobotController) :
  to_dict c
  = Return [("robot",
             VDict [("x", rb_x (_sprite_robot c));
                    ("y", rb_y (_sprite_robot c));
                    ("direction", rb_direction (_sprite_robot c))])].
Proof. reflexivity. Qed.

Lemma cmd_toggle_flips call (c : RobotController) :
  _toggled (state_of (toggle call c)) = negb (_toggled c)
  /\ _sprite_robot (state_of (toggle call c)) = _sprite_robot c
  /\ _app_mode (state_of (toggle call c)) = _app_mode c
  /\ (forall t, _text_robot c = Some t ->
      exists t', _text_robot (state_of (toggle call c)) = Some t').
Proof.
  destruct c as [tg runs mode name sim w ww wh robot text].
  run_method.
  destruct tg, call, text as [t|]; simpl;
    try destruct (PyDict.contains MOUSE_CLICK (Window._callbacks w));
    simpl; repeat split; intros; try discriminate; eauto.
Qed.

Lemma cmd_toggle_off_unhooks call (c : RobotController) :
  _toggled c = true ->
  PyDict.contains MOUSE_CLICK
    (Window._callbacks (_window (state_of (toggle call c)))) = false.
Proof.
  destruct c as [tg runs mode name sim w ww wh robot text]. simpl.
  intros ->.
  destruct (PyDict.getitem MOUSE_CLICK (Window._callbacks w)) as [f|] eqn:Hg;
    run_method; unfold PyDict.contains;
    destruct call, text as [t|]; simpl; rewrite Hg; simpl;
    rewrite ?PyDictFacts.getitem_remove_same, ?Hg; reflexivity.
Qed.

Lemma cmd_toggle_on call (c : RobotController) t :
  _toggled c = false ->
  _text_robot c = Some t ->
  exists c',
    toggle call c = (Return tt, c')
    /\ _toggled c' = true
    /\ _text_robot c' = Some (set_color SHORTCUT_TEXT_COLOR_ACTIVE t)
    /\ Window._callbacks (_window c')
       = PyDict.setitem MOUSE_CLICK robot__on_mouse_click
                        (Window._callbacks (_window c))
    /\ _app_mode c' = _app_mode c
    /\ _sprite_robot c' = _sprite_robot c.
Proof.
  destruct c as [tg runs mode name sim w ww wh robot text]. simpl.
  intros -> ->. run_method.
  destruct call; simpl; eexists; repeat split.
Qed.

Lemma cmd_toggle_off call (c : RobotController) t :
  _toggled c = true ->
  _text_robot c = Some t ->
  PyDict.contains MOUSE_CLICK (Window._callbacks (_window c)) = true ->
  exists c',
    toggle call c = (Return tt, c')
    /\ _toggled c' = false
    /\ _text_robot c' = Some (set_color SHORTCUT_TEXT_COLOR t)
    /\ Window._callbacks (_window c')
       = PyDict.remove MOUSE_CLICK (Window._callbacks (_window c))
    /\ _app_mode c' = _app_mode c
    /\ _sprite_robot c' = _sprite_robot c.
Proof.
  destruct c as [tg runs mode name sim w ww wh robot text]. simpl.
  intros -> -> Hc. run_method.
  unfold PyDict.contains in *. simpl in Hc.
  destruct call; simpl;
    (destruct (PyDict.getitem MOUSE_CLICK (Window._callbacks w));
     [| discriminate]);
    simpl; eexists; repeat split.
Qed.

(** The conversion to float returns exactly on floats and on ints a double
    can hold. *)
Lemma as_float_converts (v : pyval) :
  converts_to_float v = true <-> exists f, as_float v = Return f.
Proof.
  destruct v as [z|f|d]; unfold as_float, converts_to_float.
  - destruct (float_overflows z); simpl; split;
      [discriminate | intros [f Hf]; discriminate | eauto | reflexivity].
  - split; [eauto | reflexivity].
  - split; [discriminate | intros [f Hf]; discriminate].
Qed.



Lemma cmd_init_creator_has_text w app_mode :
  creator_has_text (__init__ w app_mode).
Proof.
  unfold creator_has_text, __init__.
  destruct (Window.get_window_size w) as [ww wh].
  destruct (app_mode =? CREATOR) eqn:Hm; simpl.
  - eauto.
  - intros Heq. apply Z.eqb_neq in Hm. contradiction.
Qed.

Lemma cmd_toggle_creator_has_text call c :
  creator_has_text c -> creator_has_text (state_of (toggle call c)).
Proof.
  unfold creator_has_text. intros Hinv.
  destruct (cmd_toggle_flips call c) as (_ & _ & Hmode & Htext).
  rewrite Hmode. intros Hm. destruct (Hinv Hm) as [t Ht]. eauto.
Qed.

Lemma cmd_from_dict_creator_has_text d c :
  creator_has_text c -> creator_has_text (state_of (from_dict d c)).
Proof.
  unfold creator_has_text.
  destruct c as [tg runs mode name sim w ww wh robot text]. run_method.
  destruct (PyDict.getitem "x" d) as [x|], (PyDict.getitem "y" d) as [y|],
    (PyDict.getitem "direction" d); simpl; auto.
  destruct (new_SimRobot x y); simpl; auto.
Qed.

Lemma cmd_on_mouse_click_creator_has_text pos c :
  creator_has_text c -> creator_has_text (state_of (_on_mouse_click pos c)).
Proof.
  intros Hinv. unfold _on_mouse_click, bind, modify. simpl.
  apply cmd_toggle_creator_has_text.
  destruct c; exact Hinv.
Qed.

End Facts.
End CommanderFacts.

(** ** Robot and goal controllers of both packages *)

Section Controllers.
Context `{Constants}.

Import Sprites.

(** C2 (amended): [RobotController.to_dict] returns the mapping whose only
    key is 'robot', holding the record with exactly the keys 'x', 'y' and
    'direction' and the marker's values; [GoalController.to_dict] returns
    the empty mapping, which has no entry for 'goal'. *)
Theorem to_dict_documents :
  (forall c : Commander.RobotController,
     Commander.to_dict c
     = Return [("robot",
                VDict [("x", rb_x (Commander._sprite_robot c));
                       ("y", rb_y (Commander._sprite_robot c));
                       ("direction",
                        rb_direction (Commander._sprite_robot c))])])
  /\ (forall c : Simulation.RobotController,
        Simulation.to_dict c
        = Return [("robot",
                   VDict [("x", rb_x (Simulation._robot c));
                          ("y", rb_y (Simulation._robot c));
                          ("direction",
                           rb_direction (Simulation._robot c))])])
  /\ (forall g : CommanderGoal.GoalController,
        CommanderGoal.to_dict g = PyDict.empty
        /\ PyDict.keys (CommanderGoal.to_dict g) = []
        /\ PyDict.getitem "goal" (CommanderGoal.to_dict g) = None).
Proof.
  split; [| split].
  - exact CommanderFacts.cmd_to_dict_document.
  - exact SimulationFacts.sim_to_dict_document.
  - intros g. split; [| split]; reflexivity.
Qed.


(** C5: when the mapping lacks 'x', 'y' or 'direction', [from_dict] raises
    a [KeyError] and the controller, with the marker's position and
    direction, is as before. *)
Theorem from_dict_missing_key_raises (d : pydict) :
  PyDict.getitem "x" d = None \/ PyDict.getitem "y" d = None
  \/ PyDict.getitem "direction" d = None ->
  (forall c : Simulation.RobotController,
     Simulation.from_dict d c = (Raise KeyError, c)
     /\ get_position (Simulation._robot
                        (state_of (Simulation.from_dict d c)))
        = get_position (Simulation._robot c)
     /\ get_direction (Simulation._robot
                         (state_of (Simulation.from_dict d c)))
        = get_direction (Simulation._robot c))
  /\ (forall c : Commander.RobotController,
        Commander.from_dict d c = (Raise KeyError, c)
        /\ get_position (Commander._sprite_robot
                           (state_of (Commander.from_dict d c)))
           = get_position (Commander._sprite_robot c)
        /\ get_direction (Commander._sprite_robot
                            (state_of (Commander.from_dict d c)))
           = get_direction (Commander._sprite_robot c)).
Proof.
  intros Hmiss.
  assert (Hs : forall c : Simulation.RobotController,
             Simulation.from_dict d c = (Raise KeyError, c)).
  { intros c. unfold Simulation.from_dict, lookup_or, bind, raise, ret.
    destruct (PyDict.getitem "x" d), (PyDict.getitem "y" d),
      (PyDict.getitem "direction" d); simpl; try reflexivity.
    destruct Hmiss as [Hm|[Hm|Hm]]; discriminate. }
  assert (Hc : forall c : Commander.RobotController,
             Commander.from_dict d c = (Raise KeyError, c)).
  { intros c. unfold Commander.from_dict, lookup_or, bind, raise, ret.
    destruct (PyDict.getitem "x" d), (PyDict.getitem "y" d),
      (PyDict.getitem "direction" d); simpl; try reflexivity.
    destruct Hmiss as [Hm|[Hm|Hm]]; discriminate. }
  split; intros c.
  - rewrite Hs. auto.
  - rewrite Hc. auto.
Qed.

(** C3: a robot controller in CREATOR mode that is not toggled is, after
    two calls of [toggle], not toggled again; both calls return, the
    shortcut text has the color [SHORTCUT_TEXT_COLOR], and the window's
    callback table has no entry for [MOUSE_CLICK]. *)
Theorem toggle_twice_restores (call1 call2 : bool) :
  (forall c : Simulation.RobotController,
     Simulation._app_mode c = CREATOR ->
     Simulation.creator_has_text c ->
     Simulation._toggled c = false ->
     exists c',
       (Simulation.toggle call1 ;; Simulation.toggle call2)%py c
       = (Return tt, c')
       /\ Simulation._toggled c' = false
       /\ (exists t, Simulation._text_robot c' = Some t
                     /\ tx_color t = SHORTCUT_TEXT_COLOR)
       /\ PyDict.contains MOUSE_CLICK
            (Window._callbacks (Simulation._window c')) = false)
  /\ (forall c : Commander.RobotController,
        Commander._app_mode c = CREATOR ->
        Commander.creator_has_text c ->
        Commander._toggled c = false ->
        exists c',
          (Commander.toggle call1 ;; Commander.toggle call2)%py c
          = (Return tt, c')
          /\ Commander._toggled c' = false
          /\ (exists t, Commander._text_robot c' = Some t
                        /\ tx_color t = SHORTCUT_TEXT_COLOR)
          /\ PyDict.contains MOUSE_CLICK
               (Window._callbacks (Commander._window c')) = false).
Proof.
  split.
  - intros c Hmode Hinv Hoff.
    destruct (Hinv Hmode) as [t Ht].
    destruct (SimulationFacts.sim_toggle_on call1 c Hoff Ht)
      as (c1 & Hrun1 & Hon1 & Ht1 & Hcb1 & _).
    assert (Hreg : PyDict.contains MOUSE_CLICK
                     (Window._callbacks (Simulation._window c1)) = true).
    { rewrite Hcb1. unfold PyDict.contains.
      rewrite PyDictFacts.getitem_setitem_same. reflexivity. }
    destruct (SimulationFacts.sim_toggle_off call2 c1 Hon1 Ht1 Hreg)
      as (c2 & Hrun2 & Hoff2 & Ht2 & Hcb2 & _).
    exists c2. unfold bind. rewrite Hrun1, Hrun2.
    split; [reflexivity | split; [exact Hoff2 | split]].
    + eexists. split; [exact Ht2 | reflexivity].
    + rewrite Hcb2. apply PyDictFacts.contains_false_iff.
      apply PyDictFacts.getitem_remove_same.
  - intros c Hmode Hinv Hoff.
    destruct (Hinv Hmode) as [t Ht].
    destruct (CommanderFacts.cmd_toggle_on call1 c Hoff Ht)
      as (c1 & Hrun1 & Hon1 & Ht1 & Hcb1 & _).
    assert (Hreg : PyDict.contains MOUSE_CLICK
                     (Window._callbacks (Commander._window c1)) = true).
    { rewrite Hcb1. unfold PyDict.contains.
      rewrite PyDictFacts.getitem_setitem_same. reflexivity. }
    destruct (CommanderFacts.cmd_toggle_off call2 c1 Hon1 Ht1 Hreg)
      as (c2 & Hrun2 & Hoff2 & Ht2 & Hcb2 & _).
    exists c2. unfold bind. rewrite Hrun1, Hrun2.
    split; [reflexivity | split; [exact Hoff2 | split]].
    + eexists. split; [exact Ht2 | reflexivity].
    + rewrite Hcb2. apply PyDictFacts.contains_false_iff.
      apply PyDictFacts.getitem_remove_same.
Qed.

(** C6: after [_on_mouse_click(pos)] on a toggled robot controller the
    marker's position is [pos], [to_dict] reports [pos] as x and y, and the
    controller has left toggle mode: it is no longer toggled and the window
    has no [MOUSE_CLICK] callback any more.  The handler returns when the
    controller is a CREATOR-mode one with its shortcut text and the click
    handler is registered. *)
Theorem mouse_click_places_robot (pos : pyval * pyval) :
  (forall c : Simulation.RobotController,
     Simulation._toggled c = true ->
     let c' := state_of (Simulation._on_mouse_click pos c) in
     get_position (Simulation._robot c') = pos
     /\ (exists doc record,
           Simulation.to_dict c' = Return doc
           /\ PyDict.getitem "robot" doc = Some (VDict record)
           /\ PyDict.getitem "x" record = Some (fst pos)
           /\ PyDict.getitem "y" record = Some (snd pos))
     /\ Simulation._toggled c' = false
     /\ PyDict.contains MOUSE_CLICK
          (Window._callbacks (Simulation._window c')) = false
     /\ (Simulation._app_mode c = CREATOR ->
         Simulation.creator_has_text c ->
         PyDict.contains MOUSE_CLICK
           (Window._callbacks (Simulation._window c)) = true ->
         result_of (Simulation._on_mouse_click pos c) = Return tt))
  /\ (forall c : Commander.RobotController,
        Commander._toggled c = true ->
        let c' := state_of (Commander._on_mouse_click pos c) in
        get_position (Commander._sprite_robot c') = pos
        /\ (exists doc record,
              Commander.to_dict c' = Return doc
              /\ PyDict.getitem "robot" doc = Some (VDict record)
              /\ PyDict.getitem "x" record = Some (fst pos)
              /\ PyDict.getitem "y" record = Some (snd pos))
        /\ Commander._toggled c' = false
        /\ PyDict.contains MOUSE_CLICK
             (Window._callbacks (Commander._window c')) = false
        /\ (Commander._app_mode c = CREATOR ->
            Commander.creator_has_text c ->
            PyDict.contains MOUSE_CLICK
              (Window._callbacks (Commander._window c)) = true ->
            result_of (Commander._on_mouse_click pos c) = Return tt)).
Proof.
  split.
  - intros c Hon c'.
    set (placed := Simulation.set__robot
                     (set_position pos (Simulation._robot c)) c).
    assert (Hc' : c' = state_of (Simulation.toggle true placed))
      by reflexivity.
    destruct (SimulationFacts.sim_toggle_flips true placed)
      as (Hflag & Hrobot & _ & _).
    rewrite <- Hc' in Hflag, Hrobot.
    assert (Hpos : get_position (Simulation._robot c') = pos).
    { rewrite Hrobot. destruct pos, c; reflexivity. }
    split; [exact Hpos | split; [| split; [| split]]].
    + rewrite SimulationFacts.sim_to_dict_document.
      do 2 eexists. split; [reflexivity | split; [reflexivity |]].
      unfold get_position in Hpos. rewrite <- Hpos.
      split; reflexivity.
    + rewrite Hflag. destruct c; simpl in *. rewrite Hon. reflexivity.
    + rewrite Hc'. apply SimulationFacts.sim_toggle_off_unhooks.
      destruct c; exact Hon.
    + intros Hmode Hinv Hreg. destruct (Hinv Hmode) as [t Ht].
      assert (Hon' : Simulation._toggled placed = true)
        by (destruct c; exact Hon).
      assert (Ht' : Simulation._text_robot placed = Some t)
        by (destruct c; exact Ht).
      assert (Hreg' : PyDict.contains MOUSE_CLICK
                        (Window._callbacks (Simulation._window placed))
                      = true) by (destruct c; exact Hreg).
      destruct (SimulationFacts.sim_toggle_off true placed Hon' Ht' Hreg')
        as (c2 & Hrun & _).
      change (result_of (Simulation.toggle true placed) = Return tt).
      rewrite Hrun. reflexivity.
  - intros c Hon c'.
    set (placed := Commander.set__sprite_robot
                     (set_position pos (Commander._sprite_robot c)) c).
    assert (Hc' : c' = state_of (Commander.toggle true placed))
      by reflexivity.
    destruct (CommanderFacts.cmd_toggle_flips true placed)
      as (Hflag & Hrobot & _ & _).
    rewrite <- Hc' in Hflag, Hrobot.
    assert (Hpos : get_position (Commander._sprite_robot c') = pos).
    { rewrite Hrobot. destruct pos, c; reflexivity. }
    split; [exact Hpos | split; [| split; [| split]]].
    + rewrite CommanderFacts.cmd_to_dict_document.
      do 2 eexists. split; [reflexivity | split; [reflexivity |]].
      unfold get_position in Hpos. rewrite <- Hpos.
      split; reflexivity.
    + rewrite Hflag. destruct c; simpl in *. rewrite Hon. reflexivity.
    + rewrite Hc'. apply CommanderFacts.cmd_toggle_off_unhooks.
      destruct c; exact Hon.
    + intros Hmode Hinv Hreg. destruct (Hinv Hmode) as [t Ht].
      assert (Hon' : Commander._toggled placed = true)
        by (destruct c; exact Hon).
      assert (Ht' : Commander._text_robot placed = Some t)
        by (destruct c; exact Ht).
      assert (Hreg' : PyDict.contains MOUSE_CLICK
                        (Window._callbacks (Commander._window placed))
                      = true) by (destruct c; exact Hreg).
      destruct (CommanderFacts.cmd_toggle_off true placed Hon' Ht' Hreg')
        as (c2 & Hrun & _).
      change (result_of (Commander.toggle true placed) = Return tt).
      rewrite Hrun. reflexivity.
Qed.

End Controllers.

(** ** The properties at concrete controllers *)

Import Examples.


(** C2 (as stated): what [GoalController.to_dict] returns has no entry for
    the key 'goal', so it is not a document in which 'goal' maps to an empty
    record. *)
Lemma goal_to_dict_has_no_goal_entry :
  PyDict.getitem "goal" (CommanderGoal.to_dict MoreExamples.goal_controller)
  = None
  /\ ~ (forall g : CommanderGoal.GoalController,
          exists record,
            PyDict.getitem "goal" (CommanderGoal.to_dict g)
            = Some (VDict record)).
Proof.
  split; [reflexivity |].
  intros Hall. destruct (Hall MoreExamples.goal_controller) as [record Hr].
  discriminate Hr.
Qed.


Lemma toggle_twice_restores_witness :
  Simulation._app_mode simulation_controller = CREATOR
  /\ Simulation.creator_has_text simulation_controller
  /\ Simulation._toggled simulation_controller = false
  /\ exists c',
       (Simulation.toggle true ;; Simulation.toggle true)%py
         simulation_controller = (Return tt, c')
       /\ Simulation._toggled c' = false
       /\ (exists t, Simulation._text_robot c' = Some t
                     /\ Sprites.tx_color t = SHORTCUT_TEXT_COLOR)
       /\ PyDict.contains MOUSE_CLICK
            (Window._callbacks (Simulation._window c')) = false.
Proof.
  assert (Htext : Simulation.creator_has_text simulation_controller)
    by (intros _; eexists; reflexivity).
  split; [reflexivity | split; [exact Htext | split; [reflexivity |]]].
  apply (proj1 (@toggle_twice_restores rational_numbers constants true true)
               simulation_controller eq_refl Htext eq_refl).
Defined.

Lemma from_dict_missing_key_raises_witness :
  PyDict.getitem "direction" record_without_direction = None
  /\ Simulation.from_dict record_without_direction simulation_controller
     = (Raise KeyError, simulation_controller).
Proof.
  split; [reflexivity |].
  apply (@from_dict_missing_key_raises rational_numbers
           record_without_direction).
  right. right. reflexivity.
Defined.

Lemma mouse_click_places_robot_witness :
  Simulation._toggled simulation_controller_toggled = true
  /\ Sprites.get_position
       (Simulation._robot
          (state_of (Simulation._on_mouse_click (VInt 10, VInt 20)
                       simulation_controller_toggled)))
     = (VInt 10, VInt 20)
  /\ PyDict.contains MOUSE_CLICK
       (Window._callbacks
          (Simulation._window
             (state_of (Simulation._on_mouse_click (VInt 10, VInt 20)
                          simulation_controller_toggled)))) = false.
Proof.
  split; [reflexivity |].
  destruct (proj1 (@mouse_click_places_robot rational_numbers constants
                     (VInt 10, VInt 20))
                  simulation_controller_toggled eq_refl)
    as (Hpos & _ & _ & Hunhooked & _).
  split; [exact Hpos | exact Hunhooked].
Defined.

(** * Further properties of the code *)

(** ** More on dictionaries and sorting *)

Module PyDictMore.
Import PyDict.
Section Facts.
Context {K V : Type} `{EqDec K}.
Implicit Types (k : K) (v : V) (d : t K V).

Lemma length_setitem_absent k v d :
  contains k d = false -> List.length (setitem k v d) = S (List.length d).
Proof.
  intros Hc. apply PyDictFacts.contains_false_iff in Hc.
  apply PyDictFacts.getitem_None_not_In in Hc.
  pose proof (PyDictFacts.keys_setitem_absent k v d Hc) as Hk.
  apply (f_equal (@List.length K)) in Hk.
  unfold keys in Hk. rewrite length_app, !length_map in Hk. simpl in Hk.
  lia.
Qed.

Lemma remove_setitem k v d : remove k (setitem k v d) = remove k d.
Proof.
  induction d as [|[k0 v0] r IH]; simpl.
  - destruct (eq_dec k k); [reflexivity | congruence].
  - destruct (eq_dec k k0) as [Heq|Hne]; simpl.
    + destruct (eq_dec k k0); [reflexivity | contradiction].
    + destruct (eq_dec k k0); [contradiction | now rewrite IH].
Qed.

Lemma remove_setitem_absent k v d :
  getitem k d = None -> remove k (setitem k v d) = d.
Proof.
  intros Hn. rewrite remove_setitem. apply PyDictFacts.remove_absent, Hn.
Qed.

Lemma In_values_setitem k v d : In v (values (setitem k v d)).
Proof.
  induction d as [|[k0 v0] r IH]; simpl.
  - now left.
  - destruct (eq_dec k k0); simpl; [now left | now right].
Qed.

Lemma contains_setitem_same k v d : contains k (setitem k v d) = true.
Proof.
  unfold contains. now rewrite PyDictFacts.getitem_setitem_same.
Qed.

Lemma contains_remove_same k d : contains k (remove k d) = false.
Proof.
  unfold contains. now rewrite PyDictFacts.getitem_remove_same.
Qed.

End Facts.
End PyDictMore.

Section SortMore.
Context {A : Type}.
Variable key : A -> Z.



End SortMore.

(** ** More on the window *)

Module WindowExtras.
Import Window WindowViews.
Section Facts.
Variables Sprite Func : Type.
Variable QUIT : Z.

Local Abbreviation window := (BaseWindow Sprite Func).
Local Abbreviation reachable := (@reachable Sprite Func QUIT).
Local Abbreviation event := (@event Sprite Func QUIT).
Local Abbreviation handle_events := (@handle_events Sprite Func QUIT).
Local Abbreviation frame := (@frame Sprite Func QUIT).
Local Abbreviation main_loop := (@main_loop Sprite Func QUIT).
Local Abbreviation start := (@start Sprite Func QUIT).
Local Abbreviation has_quit := (has_quit QUIT).

Lemma event_outcome e (w : window) :
  event e w
  = if ev_type e =? QUIT
    then (Return (match PyDict.getitem QUIT (_callbacks w) with
                  | Some f => [Call f]
                  | None => []
                  end),
          set__running false w)
    else (Return [], w).
Proof.
  unfold Window.event. destruct (ev_type e =? QUIT); [| reflexivity].
  unfold bind, modify, gets, ret, PyDict.contains. simpl.
  destruct (PyDict.getitem QUIT (_callbacks w)); reflexivity.
Qed.

Lemma set__running_twice b b' (w : window) :
  set__running b (set__running b' w) = set__running b w.
Proof. reflexivity. Qed.

Lemma set__running_same (w : window) : set__running (_running w) w = w.
Proof. destruct w; reflexivity. Qed.

Lemma handle_events_state es (w : window) :
  state_of (handle_events es w)
  = set__running (if has_quit es then false else _running w) w.
Proof.
  revert w. induction es as [|e r IH]; intros w.
  - simpl. symmetry. apply set__running_same.
  - simpl. unfold bind, state_of in *. rewrite event_outcome.
    destruct (ev_type e =? QUIT); simpl.
    + specialize (IH (set__running false w)).
      destruct (handle_events r (set__running false w)) as [[tr|ex] w'];
        simpl in *; rewrite IH; destruct (WindowViews.has_quit QUIT r);
        reflexivity.
    + specialize (IH w).
      destruct (handle_events r w) as [[tr|ex] w']; simpl in *; exact IH.
Qed.

Lemma handle_events_no_quit es (w : window) :
  has_quit es = false -> handle_events es w = (Return [], w).
Proof.
  revert w. induction es as [|e r IH]; intros w Hq; simpl in *.
  - reflexivity.
  - apply orb_false_iff in Hq. destruct Hq as [He Hr].
    unfold bind. rewrite event_outcome, He. rewrite (IH w Hr). reflexivity.
Qed.

Lemma frame_outcome es (w : window) :
  exists tr,
    frame es w
    = (Return (tr ++ render w),
       set__running (if has_quit es then false else _running w) w)
    /\ (forall x, In x tr -> exists f, x = Call f)
    /\ (has_quit es = false -> tr = []).
Proof.
  destruct (WindowFacts.handle_events_trace QUIT es w) as (tr & Hr & Hcalls).
  pose proof (handle_events_state es w) as Hst.
  rewrite Hst in Hr.
  exists tr. split; [| split].
  - unfold Window.frame, bind, gets, ret. rewrite Hr. reflexivity.
  - exact Hcalls.
  - intros Hq. rewrite (handle_events_no_quit es w Hq) in Hr.
    congruence.
Qed.

Lemma main_loop_stopped input (w : window) :
  _running w = false -> main_loop input w = (Return [], w).
Proof.
  intros Hoff. destruct input as [|es rest]; simpl.
  - reflexivity.
  - unfold bind, gets. simpl. rewrite Hoff. reflexivity.
Qed.

Lemma main_loop_no_quit input (w : window) :
  _running w = true ->
  Forall (fun es => has_quit es = false) input ->
  main_loop input w
  = (Return (List.concat (map (fun _ => render w) input)), w).
Proof.
  intros Hon Hall. induction Hall as [|es rest Hq _ IH]; simpl.
  - reflexivity.
  - unfold bind, gets. simpl. rewrite Hon.
    destruct (frame_outcome es w) as (tr & Hf & _ & Hnil).
    rewrite Hf, Hq, (Hnil Hq), set__running_same. simpl.
    rewrite IH. reflexivity.
Qed.

Lemma main_loop_no_quit_then (before more : list (list Event))
      (w : window) :
  _running w = true ->
  Forall (fun es => has_quit es = false) before ->
  main_loop (before ++ more) w
  = match main_loop more w with
    | (Return tr, w') =>
        (Return (List.concat (map (fun _ => render w) before) ++ tr), w')
    | (Raise e, w') => (Raise e, w')
    end.
Proof.
  intros Hon Hall. induction Hall as [|es rest Hq _ IH].
  - simpl. destruct (main_loop more w) as [[tr|e] w']; reflexivity.
  - simpl. unfold bind, gets. simpl. rewrite Hon.
    destruct (frame_outcome es w) as (tr & Hf & _ & Hnil).
    rewrite Hf, Hq, (Hnil Hq), set__running_same. simpl.
    rewrite IH.
    destruct (main_loop more w) as [[tr'|e] w']; simpl;
      [rewrite app_assoc |]; reflexivity.
Qed.

Lemma step_frame_rate_valid (w w' : window) :
  @step Sprite Func QUIT w w' -> frame_rate_valid w -> frame_rate_valid w'.
Proof.
  unfold frame_rate_valid. intros Hstep Hv. destruct Hstep.
  - unfold frame_rate_setter, state_of.
    destruct ((fr <? 1) || (fr >? 60)) eqn:Hb; simpl; [exact Hv|].
    apply orb_false_iff in Hb.
    rewrite Z.ltb_ge, Z.gtb_ltb, Z.ltb_ge in Hb. lia.
  - exact Hv.
  - exact Hv.
  - exact Hv.
  - unfold remove_callback, state_of.
    destruct (PyDict.delitem ty (_callbacks w)); exact Hv.
  - destruct (WindowFacts.event_runs QUIT e w) as (_ & _ & [b Hb] & _).
    rewrite Hb. exact Hv.
  - destruct (WindowFacts.start_runs QUIT input w) as [b Hb].
    rewrite Hb. exact Hv.
Qed.

(** X1: a frame rate between 1 and 60 stays between 1 and 60 through any
    sequence of calls of the window's methods. *)
Theorem frame_rate_stays_valid (w w' : window) :
  clos_refl_trans window (@step Sprite Func QUIT) w w' ->
  frame_rate_valid w -> frame_rate_valid w'.
Proof.
  induction 1 as [w w' Hstep | w | w1 w2 w3 _ IH12 _ IH23].
  - now apply step_frame_rate_valid.
  - exact (fun h => h).
  - intros Hv. apply IH23, IH12, Hv.
Qed.

(** X2: [add_sprite] under a name that is registered replaces that entry and
    the number of sprites stays; under a new name the number grows by one.
    Either way the sprite list has one entry per registered name, the new
    entry among them, and no other name's entry and no callback changes. *)
Theorem add_sprite_replaces_or_appends (w : window) (name : string)
        (s : Sprite) (z : Z) :
  let w' := state_of (add_sprite name s z w) in
  List.length (_sprite_list w') = List.length (_sprites w')
  /\ In (z, s) (_sprite_list w')
  /\ (PyDict.contains name (_sprites w) = true ->
      List.length (_sprites w') = List.length (_sprites w))
  /\ (PyDict.contains name (_sprites w) = false ->
      List.length (_sprites w') = S (List.length (_sprites w)))
  /\ (forall name', name' <> name ->
        PyDict.getitem name' (_sprites w')
        = PyDict.getitem name' (_sprites w))
  /\ _callbacks w' = _callbacks w.
Proof.
  intros w'.
  assert (Hperm : Permutation (_sprite_list w') (PyDict.values (_sprites w')))
    by apply list_sort_perm.
  split; [| split; [| split; [| split; [| split]]]].
  - rewrite (Permutation_length Hperm). unfold PyDict.values.
    apply length_map.
  - eapply Permutation_in; [apply Permutation_sym, Hperm |].
    apply PyDictMore.In_values_setitem.
  - intros Hc. apply PyDictFacts.length_setitem_present, Hc.
  - intros Hc. apply PyDictMore.length_setitem_absent, Hc.
  - intros name' Hne. apply PyDictFacts.getitem_setitem_other, Hne.
  - reflexivity.
Qed.

(** X3: adding a sprite under a name that is not registered and removing it
    again gives back the window as it was. *)
Theorem add_then_remove_sprite (w : window) (name : string) (s : Sprite)
        (z : Z) :
  reachable w ->
  PyDict.getitem name (_sprites w) = None ->
  remove_sprite name (state_of (add_sprite name s z w)) = (Return tt, w).
Proof.
  intros Hreach Hnone.
  pose proof (WindowFacts.reachable_invariant Hreach) as (_ & _ & Hcur).
  unfold remove_sprite, add_sprite, _update_sprite_list, bind, modify,
    state_of, PyDict.pop_default. simpl.
  rewrite (PyDictMore.remove_setitem_absent _ _ _ Hnone).
  rewrite <- Hcur. destruct w; reflexivity.
Qed.

(** X4: registering a callback for an event type that has none and removing
    it again gives back the window as it was; and removing the callback of
    one type twice in a row always ends in a [KeyError]. *)
Theorem callback_registered_then_removed (w : window) (ty : Z) (f : Func) :
  (PyDict.getitem ty (_callbacks w) = None ->
   remove_callback ty (state_of (on_callback ty f w)) = (Return tt, w))
  /\ result_of (remove_callback ty (state_of (remove_callback ty w)))
     = Raise KeyError.
Proof.
  split.
  - intros Hnone.
    unfold remove_callback, on_callback, modify, state_of, PyDict.delitem.
    simpl. rewrite PyDictMore.contains_setitem_same.
    rewrite (PyDictMore.remove_setitem_absent _ _ _ Hnone).
    destruct w; reflexivity.
  - unfold remove_callback, state_of, result_of, PyDict.delitem.
    destruct (PyDict.contains ty (_callbacks w)) eqn:Hc; simpl.
    + rewrite PyDictMore.contains_remove_same. reflexivity.
    + rewrite Hc. reflexivity.
Qed.


(** X6: the window's [event] acts on QUIT events only.  Any other event
    changes nothing and invokes nothing, also when a callback is registered
    for its type; a QUIT event clears the running flag and invokes the QUIT
    callback if there is one. *)
Theorem event_dispatches_only_QUIT (w : window) (e : Event) :
  (ev_type e <> QUIT -> event e w = (Return [], w))
  /\ (ev_type e = QUIT ->
      event e w
      = (Return (match PyDict.getitem QUIT (_callbacks w) with
                 | Some f => [Call f]
                 | None => []
                 end),
         set__running false w)).
Proof.
  rewrite event_outcome. split; intros Hty.
  - apply Z.eqb_neq in Hty. rewrite Hty. reflexivity.
  - apply Z.eqb_eq in Hty. rewrite Hty. reflexivity.
Qed.

(** X7: [start] ends with the turn in which a QUIT event arrives, whichever
    turn that is.  The turns before it each render once and invoke nothing;
    the turn with the QUIT still handles all its events and renders once;
    later batches of events play no part, and the window is left not
    running with nothing else changed. *)
Theorem start_stops_after_quit (w : window) (before : list (list Event))
        (es : list Event) (rest : list (list Event)) :
  Forall (fun batch => has_quit batch = false) before ->
  has_quit es = true ->
  start (before ++ es :: rest) w = start (before ++ [es]) w
  /\ state_of (start (before ++ es :: rest) w) = set__running false w
  /\ exists tr,
       result_of (start (before ++ es :: rest) w)
       = Return (List.concat (map (fun _ => render w) before)
                   ++ tr ++ render w)
       /\ forall x, In x tr -> exists f, x = Call f.
Proof.
  intros Hall Hq.
  destruct (frame_outcome es (set__running true w))
    as (tr & Hf & Hcalls & _).
  rewrite Hq in Hf. simpl in Hf.
  assert (Hrun : forall more,
             start (before ++ es :: more) w
             = (Return (List.concat (map (fun _ => render w) before)
                          ++ tr ++ render w),
                set__running false w)).
  { intros more. unfold Window.start, bind, modify. simpl.
    rewrite (main_loop_no_quit_then (es :: more) (set__running true w)
               eq_refl Hall).
    simpl. unfold bind, gets. simpl. rewrite Hf.
    rewrite main_loop_stopped by reflexivity.
    unfold ret. rewrite app_nil_r. reflexivity. }
  rewrite (Hrun rest), (Hrun []).
  split; [reflexivity | split; [reflexivity |]].
  exists tr. split; [reflexivity | exact Hcalls].
Qed.

(** X8: as long as no QUIT event arrives, [start] renders once per turn and
    invokes no callback: each turn draws every sprite of the sprite list,
    ticks the clock with the frame rate and flips, and the window is left
    running with nothing else changed. *)
Theorem start_without_quit (w : window) (input : list (list Event)) :
  Forall (fun es => has_quit es = false) input ->
  start input w
  = (Return (List.concat (map (fun _ => render w) input)),
     set__running true w).
Proof.
  intros Hall. unfold Window.start, bind, modify. simpl.
  rewrite (main_loop_no_quit (set__running true w) eq_refl Hall).
  reflexivity.
Qed.

(** X9: removing a registered sprite takes exactly one entry out of the
    sprite list; the name is free afterwards and no other name's entry
    and no callback changes. *)
Theorem remove_sprite_registered (w : window) (name : string) :
  reachable w ->
  PyDict.contains name (_sprites w) = true ->
  let w' := state_of (remove_sprite name w) in
  S (List.length (_sprite_list w')) = List.length (_sprite_list w)
  /\ PyDict.getitem name (_sprites w') = None
  /\ (forall name', name' <> name ->
        PyDict.getitem name' (_sprites w')
        = PyDict.getitem name' (_sprites w))
  /\ _callbacks w' = _callbacks w.
Proof.
  intros Hreach Hc w'.
  pose proof (WindowFacts.reachable_invariant Hreach) as (_ & Hwf & Hcur).
  split; [| split; [| split]].
  - assert (Hlen : forall l : list (Z * Sprite),
               List.length
                 (list_sort (fun sprite : Z * Sprite => fst sprite) true l)
               = List.length l)
      by (intros l; apply Permutation_length, list_sort_perm).
    subst w'. rewrite Hcur. simpl. rewrite !Hlen.
    unfold PyDict.values. rewrite !length_map.
    apply PyDictFacts.length_remove_wf; assumption.
  - apply PyDictFacts.getitem_remove_same.
  - intros name' Hne. apply PyDictFacts.getitem_remove_other, Hne.
  - reflexivity.
Qed.

End Facts.

Import Examples MoreExamples.

Lemma layered_window_reachable :
  @reachable string nat QUIT layered_window.
Proof.
  eapply reach_step; [| apply step_add_sprite].
  eapply reach_step; [| apply step_add_sprite].
  eapply reach_step; [| apply step_add_sprite].
  apply WindowFacts.plain_window_reachable.
Defined.

Lemma frame_rate_stays_valid_witness :
  clos_refl_trans _ (@step string nat QUIT) plain_window
    (state_of (frame_rate_setter 30 plain_window))
  /\ frame_rate_valid plain_window
  /\ frame_rate_valid (state_of (frame_rate_setter 30 plain_window)).
Proof.
  assert (Hstep : clos_refl_trans _ (@step string nat QUIT) plain_window
                    (state_of (frame_rate_setter 30 plain_window)))
    by (apply rt_step, step_frame_rate).
  assert (Hv : frame_rate_valid plain_window)
    by (unfold frame_rate_valid; simpl; lia).
  split; [exact Hstep | split; [exact Hv |]].
  exact (@frame_rate_stays_valid string nat QUIT _ _ Hstep Hv).
Defined.

Lemma add_sprite_replaces_or_appends_witness :
  PyDict.contains "a" (_sprites layered_window) = true
  /\ List.length
       (_sprites (state_of (add_sprite "a" "A2" 9 layered_window)))
     = List.length (_sprites layered_window).
Proof.
  split; [reflexivity |].
  apply (@add_sprite_replaces_or_appends string nat layered_window "a"
           "A2" 9).
  reflexivity.
Defined.

Lemma add_then_remove_sprite_witness :
  @reachable string nat QUIT layered_window
  /\ PyDict.getitem "d" (_sprites layered_window) = None
  /\ remove_sprite "d" (state_of (add_sprite "d" "D" 3 layered_window))
     = (Return tt, layered_window).
Proof.
  split; [apply layered_window_reachable | split; [reflexivity |]].
  apply (@add_then_remove_sprite string nat QUIT layered_window "d" "D" 3
           layered_window_reachable).
  reflexivity.
Defined.

Lemma callback_registered_then_removed_witness :
  PyDict.getitem 7 (_callbacks plain_window) = None
  /\ remove_callback 7 (state_of (on_callback 7 3%nat plain_window))
     = (Return tt, plain_window).
Proof.
  split; [reflexivity |].
  apply (@callback_registered_then_removed string nat plain_window 7
           3%nat).
  reflexivity.
Defined.


Lemma event_dispatches_only_QUIT_witness :
  ev_type (mkEvent 1025) <> QUIT
  /\ Window.event QUIT (mkEvent 1025) plain_window_with_callback
     = (Return [], plain_window_with_callback).
Proof.
  assert (Hne : ev_type (mkEvent 1025) <> QUIT)
    by (unfold QUIT; simpl; lia).
  split; [exact Hne |].
  exact (proj1 (@event_dispatches_only_QUIT string nat QUIT
                  plain_window_with_callback (mkEvent 1025)) Hne).
Defined.

Lemma start_stops_after_quit_witness :
  Forall (fun batch => has_quit QUIT batch = false) [[mkEvent 5]]
  /\ has_quit QUIT [mkEvent 5; mkEvent QUIT] = true
  /\ Window.start QUIT
       ([[mkEvent 5]] ++ [mkEvent 5; mkEvent QUIT] :: [[mkEvent 5]])
       layered_window
     = Window.start QUIT ([[mkEvent 5]] ++ [[mkEvent 5; mkEvent QUIT]])
         layered_window.
Proof.
  assert (Hall : Forall (fun batch => has_quit QUIT batch = false)
                        [[mkEvent 5]])
    by (repeat constructor).
  split; [exact Hall | split; [reflexivity |]].
  exact (proj1 (@start_stops_after_quit string nat QUIT layered_window
                  [[mkEvent 5]] [mkEvent 5; mkEvent QUIT] [[mkEvent 5]]
                  Hall eq_refl)).
Defined.

Lemma start_without_quit_witness :
  Forall (fun es => has_quit QUIT es = false) [[mkEvent 5]; []]
  /\ Window.start QUIT [[mkEvent 5]; []] layered_window
     = (Return (render layered_window ++ render layered_window ++ []),
        set__running true layered_window).
Proof.
  assert (Hall : Forall (fun es => has_quit QUIT es = false)
                        [[mkEvent 5]; []])
    by (repeat constructor).
  split; [exact Hall |].
  exact (@start_without_quit string nat QUIT layered_window _ Hall).
Defined.

Lemma remove_sprite_registered_witness :
  @reachable string nat QUIT layered_window
  /\ PyDict.contains "b" (_sprites layered_window) = true
  /\ PyDict.getitem "b"
       (_sprites (state_of (remove_sprite "b" layered_window))) = None.
Proof.
  split; [apply layered_window_reachable | split; [reflexivity |]].
  apply (@remove_sprite_registered string nat QUIT layered_window "b"
           layered_window_reachable).
  reflexivity.
Defined.

End WindowExtras.

(** ** More on the simulation package's robot controller *)

Module SimulationExtras.
Import Sprites Simulation.
Section Facts.
Context `{Constants}.

Ltac run_method :=
  unfold toggle, base_toggle, _on_mouse_click, from_dict, loop, on_window,
    on_text_robot, is_toggled, Window.on_callback, Window.remove_callback,
    PyDict.delitem, lookup_or, bind, modify, gets, ret, raise, state_of,
    result_of;
  simpl.

(** The controller after the [BaseSubController] part of [toggle]. *)
Lemma sim_base_toggle_state call (c : RobotController) :
  state_of (base_toggle call c)
  = set_callback_runs (callback_runs c + Nat.b2n call)
                      (set__toggled (negb (_toggled c)) c).
Proof.
  destruct c as [tg runs mode name w ww wh robot text].
  unfold base_toggle, modify, state_of. simpl.
  destruct call; simpl; unfold set_callback_runs; simpl.
  - rewrite Nat.add_1_r. reflexivity.
  - rewrite Nat.add_0_r. reflexivity.
Qed.

Lemma sim_toggle_on_state call (c : RobotController) t :
  _toggled c = false ->
  _text_robot c = Some t ->
  toggle call c
  = (Return tt,
     set__text_robot (Some (set_color SHORTCUT_TEXT_COLOR_ACTIVE t))
       (set__window
          (Window.set__callbacks
             (PyDict.setitem MOUSE_CLICK self__on_mouse_click
                             (Window._callbacks (_window c)))
             (_window c))
          (state_of (base_toggle call c)))).
Proof.
  destruct c as [tg runs mode name w ww wh robot text]. simpl.
  intros -> ->. run_method. destruct call; reflexivity.
Qed.

Lemma sim_toggle_off_state call (c : RobotController) t :
  _toggled c = true ->
  _text_robot c = Some t ->
  PyDict.contains MOUSE_CLICK (Window._callbacks (_window c)) = true ->
  toggle call c
  = (Return tt,
     set__text_robot (Some (set_color SHORTCUT_TEXT_COLOR t))
       (set__window
          (Window.set__callbacks
             (PyDict.remove MOUSE_CLICK (Window._callbacks (_window c)))
             (_window c))
          (state_of (base_toggle call c)))).
Proof.
  destruct c as [tg runs mode name w ww wh robot text]. simpl.
  intros -> -> Hc. run_method.
  unfold PyDict.contains in *. simpl in Hc.
  destruct call; simpl;
    (destruct (PyDict.getitem MOUSE_CLICK (Window._callbacks w));
     [| discriminate]);
    reflexivity.
Qed.

Lemma sim_toggle_off_unregistered call (c : RobotController) :
  _toggled c = true ->
  PyDict.contains MOUSE_CLICK (Window._callbacks (_window c)) = false ->
  toggle call c = (Raise KeyError, state_of (base_toggle call c)).
Proof.
  destruct c as [tg runs mode name w ww wh robot text]. simpl.
  intros -> Hc. run_method.
  unfold PyDict.contains in *. simpl in Hc.
  destruct call; simpl;
    (destruct (PyDict.getitem MOUSE_CLICK (Window._callbacks w));
     [discriminate |]);
    reflexivity.
Qed.

Lemma sim_toggle_without_text call (c : RobotController) :
  _text_robot c = None ->
  (_toggled c = false \/
   PyDict.contains MOUSE_CLICK (Window._callbacks (_window c)) = true) ->
  toggle call c
  = (Raise AttributeError,
     set__window
       (Window.set__callbacks
          (if _toggled c
           then PyDict.remove MOUSE_CLICK (Window._callbacks (_window c))
           else PyDict.setitem MOUSE_CLICK self__on_mouse_click
                               (Window._callbacks (_window c)))
          (_window c))
       (state_of (base_toggle call c))).
Proof.
  destruct c as [tg runs mode name w ww wh robot text]. simpl.
  intros -> Hcase. run_method.
  destruct tg.
  - destruct Hcase as [Hf | Hc]; [discriminate |].
    unfold PyDict.contains in *. simpl in Hc.
    destruct call; simpl;
      (destruct (PyDict.getitem MOUSE_CLICK (Window._callbacks w));
       [| discriminate]);
      reflexivity.
  - destruct call; reflexivity.
Qed.

(** The window of a controller stays one the window's own methods can
    produce. *)
Lemma sim_toggle_window_reachable QUIT call (c : RobotController) :
  Window.reachable QUIT (_window c) ->
  Window.reachable QUIT (_window (state_of (toggle call c))).
Proof.
  intros Hreach.
  assert (Hon : Window.reachable QUIT
                  (state_of (Window.on_callback MOUSE_CLICK
                               self__on_mouse_click (_window c))))
    by (eapply Window.reach_step; [exact Hreach | constructor]).
  assert (Hoff : Window.reachable QUIT
                   (state_of (Window.remove_callback MOUSE_CLICK
                                (_window c))))
    by (eapply Window.reach_step; [exact Hreach | constructor]).
  destruct c as [tg runs mode name w ww wh robot text].
  revert Hon Hoff. run_method. intros Hon Hoff.
  destruct tg, call, text as [t|]; simpl in *; try exact Hon;
    destruct (PyDict.contains MOUSE_CLICK (Window._callbacks w));
    simpl in *; assumption.
Qed.

Lemma sim_from_dict_window d (c : RobotController) :
  _window (state_of (from_dict d c)) = _window c.
Proof.
  destruct c as [tg runs mode name w ww wh robot text]. run_method.
  destruct (PyDict.getitem "x" d), (PyDict.getitem "y" d),
    (PyDict.getitem "direction" d); reflexivity.
Qed.

Lemma sim_loop_window pos (c : RobotController) :
  _window (state_of (loop pos c)) = _window c.
Proof.
  destruct c as [tg runs mode name w ww wh robot text]. run_method.
  destruct tg; reflexivity.
Qed.

(** X10: what [RobotController.__init__] of the simulation package leaves
    behind.  The controller is not toggled and its marker sits at
    (-100, -100); the window has the marker registered as 'sprite_robot' on
    layer 0 and is still a window its own methods can produce.  In CREATOR
    mode the shortcut text exists in the plain color, is registered as
    'text_robot', and [toggle] is the callback of [CREATOR_PLACE_ROBOT]; in
    any other mode there is no shortcut text and no callback is added. *)
Theorem simulation_init_registers (QUIT : Z) (w0 : window) (app_mode : Z) :
  let c := __init__ w0 app_mode in
  _toggled c = false
  /\ to_dict c
     = Return [("robot",
                VDict [("x", VInt (-100)); ("y", VInt (-100));
                       ("direction", initial_direction)])]
  /\ PyDict.getitem "sprite_robot" (Window._sprites (_window c))
     = Some (0, the_sprite_robot)
  /\ (app_mode = CREATOR ->
      PyDict.getitem "text_robot" (Window._sprites (_window c))
      = Some (0, the_text_robot)
      /\ PyDict.getitem CREATOR_PLACE_ROBOT (Window._callbacks (_window c))
         = Some self_toggle
      /\ exists t, _text_robot c = Some t
                   /\ tx_color t = SHORTCUT_TEXT_COLOR)
  /\ (app_mode <> CREATOR ->
      _text_robot c = None
      /\ Window._callbacks (_window c) = Window._callbacks w0)
  /\ (Window.reachable QUIT w0 -> Window.reachable QUIT (_window c)).
Proof.
  intros c. subst c. unfold __init__.
  destruct (Window.get_window_size w0) as [ww wh].
  assert (Hr1 : Window.reachable QUIT w0 ->
                Window.reachable QUIT
                  (state_of (Window.add_sprite "sprite_robot"
                               the_sprite_robot 0 w0)))
    by (intros Hr; eapply Window.reach_step; [exact Hr | constructor]).
  destruct (app_mode =? CREATOR) eqn:Hm.
  - apply Z.eqb_eq in Hm.
    split; [reflexivity | split; [reflexivity | split; [| split; [| split]]]].
    + simpl. rewrite PyDictFacts.getitem_setitem_other by discriminate.
      apply PyDictFacts.getitem_setitem_same.
    + intros _. split; [| split].
      * simpl. apply PyDictFacts.getitem_setitem_same.
      * simpl. apply PyDictFacts.getitem_setitem_same.
      * eexists. split; reflexivity.
    + intros Hne. contradiction.
    + intros Hr.
      change (Window.reachable QUIT
                (state_of (Window.on_callback CREATOR_PLACE_ROBOT self_toggle
                  (state_of (Window.add_sprite "text_robot" the_text_robot 0
                    (state_of (Window.add_sprite "sprite_robot"
                                 the_sprite_robot 0 w0))))))).
      eapply Window.reach_step; [| apply Window.step_on_callback].
      eapply Window.reach_step; [| apply Window.step_add_sprite].
      apply Hr1, Hr.
  - apply Z.eqb_neq in Hm.
    split; [reflexivity | split; [reflexivity | split; [| split; [| split]]]].
    + simpl. apply PyDictFacts.getitem_setitem_same.
    + intros Heq. contradiction.
    + intros _. split; reflexivity.
    + exact Hr1.
Qed.

(** X14: when the mapping has 'x', 'y' and 'direction', [from_dict] of the
    simulation package returns; [to_dict] then reports exactly these three
    values, whatever else the mapping holds; the toggle flag, the window
    and the shortcut text are untouched; and a second [from_dict] of the
    same mapping changes nothing more. *)
Theorem simulation_from_dict_then_to_dict (d : pydict) (x y dir : pyval)
        (c : RobotController) :
  PyDict.getitem "x" d = Some x ->
  PyDict.getitem "y" d = Some y ->
  PyDict.getitem "direction" d = Some dir ->
  let c' := state_of (from_dict d c) in
  from_dict d c = (Return tt, c')
  /\ to_dict c'
     = Return [("robot", VDict [("x", x); ("y", y); ("direction", dir)])]
  /\ _toggled c' = _toggled c
  /\ _window c' = _window c
  /\ _text_robot c' = _text_robot c
  /\ from_dict d c' = (Return tt, c').
Proof.
  intros Hx Hy Hd c'. subst c'.
  destruct c as [tg runs mode name w ww wh robot text].
  run_method. rewrite Hx, Hy, Hd. simpl.
  repeat split.
Qed.

(** X17: a whole placement in the simulation package.  From a controller
    that is not toggled and has its shortcut text, pressing the shortcut,
    moving the mouse and clicking returns at every step and ends with the
    marker at the click position, the controller not toggled, the shortcut
    text in the plain color and no [MOUSE_CLICK] callback; until the click
    the marker follows the mouse. *)
Theorem simulation_placement (c : RobotController) (t : Text)
        (mouse : Z * Z) (click : pyval * pyval) :
  _toggled c = false ->
  _text_robot c = Some t ->
  exists c1 c2 c3,
    toggle true c = (Return tt, c1)
    /\ loop mouse c1 = (Return tt, c2)
    /\ _on_mouse_click click c2 = (Return tt, c3)
    /\ get_position (_robot c2) = (VInt (fst mouse), VInt (snd mouse))
    /\ _toggled c2 = true
    /\ get_position (_robot c3) = click
    /\ get_direction (_robot c3) = get_direction (_robot c)
    /\ _toggled c3 = false
    /\ _text_robot c3 = Some (set_color SHORTCUT_TEXT_COLOR t)
    /\ Window._callbacks (_window c3)
       = PyDict.remove MOUSE_CLICK (Window._callbacks (_window c))
    /\ Window._sprite_list (_window c3) = Window._sprite_list (_window c).
Proof.
  intros Hoff Ht.
  destruct c as [tg runs mode name w ww wh robot text].
  simpl in Hoff, Ht. subst tg text.
  set (c0 := mkController false runs mode name w ww wh robot (Some t)).
  set (c2 := state_of (loop mouse (state_of (toggle true c0)))).
  set (placed := set__robot (set_position click (_robot c2)) c2).
  assert (Hrun : toggle true placed
                 = (Return tt,
                    set__text_robot
                      (Some (set_color SHORTCUT_TEXT_COLOR
                               (set_color SHORTCUT_TEXT_COLOR_ACTIVE t)))
                      (set__window
                         (Window.set__callbacks
                            (PyDict.remove MOUSE_CLICK
                               (Window._callbacks (_window placed)))
                            (_window placed))
                         (state_of (base_toggle true placed))))).
  { apply sim_toggle_off_state; [reflexivity | reflexivity |].
    exact (PyDictMore.contains_setitem_same _ _ _). }
  exists (state_of (toggle true c0)), c2, (state_of (toggle true placed)).
  split; [reflexivity | split; [reflexivity | split]].
  - change (_on_mouse_click click c2) with (toggle true placed).
    rewrite Hrun. reflexivity.
  - rewrite Hrun. destruct click as [cx cy].
    split; [reflexivity | split; [reflexivity | split; [reflexivity |]]].
    split; [reflexivity | split; [reflexivity | split; [reflexivity |]]].
    split; [| reflexivity].
    exact (PyDictMore.remove_setitem _ _ _).
Qed.

End Facts.
End SimulationExtras.

(** ** More on the commander package's controllers *)

Module CommanderExtras.
Import Sprites Commander.
Section Facts.
Context `{Constants}.

Ltac run_method :=
  unfold toggle, base_toggle, _on_mouse_click, from_dict, on_window,
    on_text_robot, is_toggled, Window.on_callback, Window.remove_callback,
    PyDict.delitem, lookup_or, bind, modify, gets, ret, raise, state_of,
    result_of;
  simpl.

Lemma cmd_base_toggle_state call (c : RobotController) :
  state_of (base_toggle call c)
  = set_callback_runs (callback_runs c + Nat.b2n call)
                      (set__toggled (negb (_toggled c)) c).
Proof.
  destruct c as [tg runs mode name sim w ww wh robot text].
  unfold base_toggle, modify, state_of. simpl.
  destruct call; simpl; unfold set_callback_runs; simpl.
  - rewrite Nat.add_1_r. reflexivity.
  - rewrite Nat.add_0_r. reflexivity.
Qed.

Lemma cmd_toggle_on_state call (c : RobotController) t :
  _toggled c = false ->
  _text_robot c = Some t ->
  toggle call c
  = (Return tt,
     set__text_robot (Some (set_color SHORTCUT_TEXT_COLOR_ACTIVE t))
       (set__window
          (Window.set__callbacks
             (PyDict.setitem MOUSE_CLICK robot__on_mouse_click
                             (Window._callbacks (_window c)))
             (_window c))
          (state_of (base_toggle call c)))).
Proof.
  destruct c as [tg runs mode name sim w ww wh robot text]. simpl.
  intros -> ->. run_method. destruct call; reflexivity.
Qed.

Lemma cmd_toggle_off_state call (c : RobotController) t :
  _toggled c = true ->
  _text_robot c = Some t ->
  PyDict.contains MOUSE_CLICK (Window._callbacks (_window c)) = true ->
  toggle call c
  = (Return tt,
     set__text_robot (Some (set_color SHORTCUT_TEXT_COLOR t))
       (set__window
          (Window.set__callbacks
             (PyDict.remove MOUSE_CLICK (Window._callbacks (_window c)))
             (_window c))
          (state_of (base_toggle call c)))).
Proof.
  destruct c as [tg runs mode name sim w ww wh robot text]. simpl.
  intros -> -> Hc. run_method.
  unfold PyDict.contains in *. simpl in Hc.
  destruct call; simpl;
    (destruct (PyDict.getitem MOUSE_CLICK (Window._callbacks w));
     [| discriminate]);
    reflexivity.
Qed.

Lemma cmd_toggle_off_unregistered call (c : RobotController) :
  _toggled c = true ->
  PyDict.contains MOUSE_CLICK (Window._callbacks (_window c)) = false ->
  toggle call c = (Raise KeyError, state_of (base_toggle call c)).
Proof.
  destruct c as [tg runs mode name sim w ww wh robot text]. simpl.
  intros -> Hc. run_method.
  unfold PyDict.contains in *. simpl in Hc.
  destruct call; simpl;
    (destruct (PyDict.getitem MOUSE_CLICK (Window._callbacks w));
     [discriminate |]);
    reflexivity.
Qed.

Lemma cmd_toggle_without_text call (c : RobotController) :
  _text_robot c = None ->
  (_toggled c = false \/
   PyDict.contains MOUSE_CLICK (Window._callbacks (_window c)) = true) ->
  toggle call c
  = (Raise AttributeError,
     set__window
       (Window.set__callbacks
          (if _toggled c
           then PyDict.remove MOUSE_CLICK (Window._callbacks (_window c))
           else PyDict.setitem MOUSE_CLICK robot__on_mouse_click
                               (Window._callbacks (_window c)))
          (_window c))
       (state_of (base_toggle call c))).
Proof.
  destruct c as [tg runs mode name sim w ww wh robot text]. simpl.
  intros -> Hcase. run_method.
  destruct tg.
  - destruct Hcase as [Hf | Hc]; [discriminate |].
    unfold PyDict.contains in *. simpl in Hc.
    destruct call; simpl;
      (destruct (PyDict.getitem MOUSE_CLICK (Window._callbacks w));
       [| discriminate]);
      reflexivity.
  - destruct call; reflexivity.
Qed.

Lemma cmd_toggle_window_reachable QUIT call (c : RobotController) :
  Window.reachable QUIT (_window c) ->
  Window.reachable QUIT (_window (state_of (toggle call c))).
Proof.
  intros Hreach.
  assert (Hon : Window.reachable QUIT
                  (state_of (Window.on_callback MOUSE_CLICK
                               robot__on_mouse_click (_window c))))
    by (eapply Window.reach_step; [exact Hreach | constructor]).
  assert (Hoff : Window.reachable QUIT
                   (state_of (Window.remove_callback MOUSE_CLICK
                                (_window c))))
    by (eapply Window.reach_step; [exact Hreach | constructor]).
  destruct c as [tg runs mode name sim w ww wh robot text].
  revert Hon Hoff. run_method. intros Hon Hoff.
  destruct tg, call, text as [t|]; simpl in *; try exact Hon;
    destruct (PyDict.contains MOUSE_CLICK (Window._callbacks w));
    simpl in *; assumption.
Qed.

Lemma cmd_from_dict_window d (c : RobotController) :
  _window (state_of (from_dict d c)) = _window c.
Proof.
  destruct c as [tg runs mode name sim w ww wh robot text]. run_method.
  destruct (PyDict.getitem "x" d) as [x|], (PyDict.getitem "y" d) as [y|],
    (PyDict.getitem "direction" d); try reflexivity.
  simpl. destruct (new_SimRobot x y); reflexivity.
Qed.

(** What [from_dict] does once the three lookups succeeded: the marker
    takes the values, and the outcome is that of building the simulated
    robot. *)
Lemma cmd_from_dict_outcome (d : pydict) (x y dir : pyval)
      (c : RobotController) :
  PyDict.getitem "x" d = Some x ->
  PyDict.getitem "y" d = Some y ->
  PyDict.getitem "direction" d = Some dir ->
  from_dict d c
  = match new_SimRobot x y with
    | Return r =>
        (Return tt,
         set__robot r
           (set__sprite_robot
              (set_direction dir (set_position (x, y) (_sprite_robot c)))
              c))
    | Raise e =>
        (Raise e,
         set__sprite_robot
           (set_direction dir (set_position (x, y) (_sprite_robot c))) c)
    end.
Proof.
  intros Hx Hy Hd.
  destruct c as [tg runs mode name sim w ww wh robot text].
  run_method. rewrite Hx, Hy, Hd. simpl.
  destruct (new_SimRobot x y); reflexivity.
Qed.

(** X15: [from_dict] of the commander package on a mapping that has 'x',
    'y' and 'direction' always moves the marker to these values and leaves
    the toggle flag and the window alone.  When x and y both convert to
    float it returns and the simulated robot is rebuilt at the converted
    position with [ROBOT_SIZE].  When the conversion of x, or after it that
    of y, raises, [from_dict] raises the same exception after the marker has
    moved and the simulated robot is still the old one: an [OverflowError]
    for an int no double can hold, a [TypeError] for a mapping. *)
Theorem commander_from_dict_rebuilds_robot (d : pydict) (x y dir : pyval)
        (c : RobotController) :
  PyDict.getitem "x" d = Some x ->
  PyDict.getitem "y" d = Some y ->
  PyDict.getitem "direction" d = Some dir ->
  let c' := state_of (from_dict d c) in
  get_position (_sprite_robot c') = (x, y)
  /\ get_direction (_sprite_robot c') = dir
  /\ _toggled c' = _toggled c
  /\ _window c' = _window c
  /\ (forall fx fy,
        as_float x = Return fx -> as_float y = Return fy ->
        from_dict d c = (Return tt, c')
        /\ _robot c' = mkSimRobot (fx, fy) ROBOT_SIZE)
  /\ (forall e,
        as_float x = Raise e
        \/ ((exists fx, as_float x = Return fx) /\ as_float y = Raise e) ->
        result_of (from_dict d c) = Raise e
        /\ _robot c' = _robot c)
  /\ (forall z,
        x = VInt z \/ (converts_to_float x = true /\ y = VInt z) ->
        float_overflows z = true ->
        result_of (from_dict d c) = Raise OverflowError)
  /\ (forall m,
        x = VDict m \/ (converts_to_float x = true /\ y = VDict m) ->
        result_of (from_dict d c) = Raise TypeError).
Proof.
  intros Hx Hy Hd c'. subst c'.
  rewrite (cmd_from_dict_outcome d c Hx Hy Hd).
  assert (Herr : forall e,
             as_float x = Raise e
             \/ ((exists fx, as_float x = Return fx) /\ as_float y = Raise e)
             -> new_SimRobot x y = Raise e).
  { intros e Hcase. unfold new_SimRobot, np_array_float, and_then.
    destruct Hcase as [Ex | [[fx Ex] Ey]]; rewrite Ex; [reflexivity |].
    rewrite Ey. reflexivity. }
  assert (Hconv : forall v, converts_to_float v = true ->
                            exists f, as_float v = Return f)
    by (intros v; apply CommanderFacts.as_float_converts).
  assert (Hraise : forall e, new_SimRobot x y = Raise e ->
             result_of
               match new_SimRobot x y with
               | Return r =>
                   (Return tt,
                    set__robot r
                      (set__sprite_robot
                         (set_direction dir
                            (set_position (x, y) (_sprite_robot c))) c))
               | Raise e0 =>
                   (Raise e0,
                    set__sprite_robot
                      (set_direction dir
                         (set_position (x, y) (_sprite_robot c))) c)
               end = Raise e)
    by (intros e He; rewrite He; reflexivity).
  split; [| split; [| split; [| split; [| split; [| split; [| split]]]]]].
  - destruct (new_SimRobot x y), c; reflexivity.
  - destruct (new_SimRobot x y), c; reflexivity.
  - destruct (new_SimRobot x y), c; reflexivity.
  - destruct (new_SimRobot x y), c; reflexivity.
  - intros fx fy Ex Ey.
    unfold new_SimRobot, np_array_float, and_then. rewrite Ex, Ey.
    split; reflexivity.
  - intros e Hcase. split; [apply Hraise, Herr, Hcase |].
    rewrite (Herr e Hcase). destruct c; reflexivity.
  - intros z Hcase Hov. apply Hraise, Herr.
    assert (Ez : as_float (VInt z) = Raise OverflowError)
      by (unfold as_float; rewrite Hov; reflexivity).
    destruct Hcase as [-> | [Hc ->]]; [left; exact Ez |].
    right. split; [apply Hconv, Hc | exact Ez].
  - intros m Hcase. apply Hraise, Herr.
    destruct Hcase as [-> | [Hc ->]]; [left; reflexivity |].
    right. split; [apply Hconv, Hc | reflexivity].
Qed.

(** X18: a commander robot controller built in MANUAL mode has, when the
    five MANUAL event types differ from one another, each of them bound to
    its motor closure: left +1, left -1, right +1, right -1 and both +1. *)
Theorem commander_manual_callbacks (w0 : window) :
  NoDup [MANUAL_LEFT_INCREASE; MANUAL_LEFT_DECREASE; MANUAL_RIGHT_INCREASE;
         MANUAL_RIGHT_DECREASE; MANUAL_BOTH_INCREASE] ->
  let cbs := Window._callbacks (_window (__init__ w0 MANUAL)) in
  PyDict.getitem MANUAL_LEFT_INCREASE cbs = Some (robot_motor_left 1)
  /\ PyDict.getitem MANUAL_LEFT_DECREASE cbs = Some (robot_motor_left (-1))
  /\ PyDict.getitem MANUAL_RIGHT_INCREASE cbs = Some (robot_motor_right 1)
  /\ PyDict.getitem MANUAL_RIGHT_DECREASE cbs
     = Some (robot_motor_right (-1))
  /\ PyDict.getitem MANUAL_BOTH_INCREASE cbs = Some (robot_motors_both 1 1).
Proof.
  intros Hnd cbs. subst cbs.
  assert (Hd : MANUAL_LEFT_INCREASE <> MANUAL_LEFT_DECREASE
               /\ MANUAL_LEFT_INCREASE <> MANUAL_RIGHT_INCREASE
               /\ MANUAL_LEFT_INCREASE <> MANUAL_RIGHT_DECREASE
               /\ MANUAL_LEFT_INCREASE <> MANUAL_BOTH_INCREASE
               /\ MANUAL_LEFT_DECREASE <> MANUAL_RIGHT_INCREASE
               /\ MANUAL_LEFT_DECREASE <> MANUAL_RIGHT_DECREASE
               /\ MANUAL_LEFT_DECREASE <> MANUAL_BOTH_INCREASE
               /\ MANUAL_RIGHT_INCREASE <> MANUAL_RIGHT_DECREASE
               /\ MANUAL_RIGHT_INCREASE <> MANUAL_BOTH_INCREASE
               /\ MANUAL_RIGHT_DECREASE <> MANUAL_BOTH_INCREASE).
  { repeat match goal with
           | Hn : NoDup (_ :: _) |- _ =>
               let Hin := fresh "Hin" in
               let Hrest := fresh "Hrest" in
               apply NoDup_cons_iff in Hn; destruct Hn as [Hin Hrest];
               simpl in Hin
           end.
    repeat split; intros Heq; rewrite Heq in *; tauto. }
  destruct Hd as (D12 & D13 & D14 & D15 & D23 & D24 & D25 & D34 & D35 & D45).
  unfold __init__.
  destruct (Window.get_window_size w0) as [ww wh].
  rewrite Z.eqb_refl. unfold Window.on_callback, modify, state_of.
  cbn [snd _window Window._callbacks Window.set__callbacks].
  repeat split.
  - rewrite !PyDictFacts.getitem_setitem_other by assumption.
    apply PyDictFacts.getitem_setitem_same.
  - rewrite !PyDictFacts.getitem_setitem_other by assumption.
    apply PyDictFacts.getitem_setitem_same.
  - rewrite !PyDictFacts.getitem_setitem_other by assumption.
    apply PyDictFacts.getitem_setitem_same.
  - rewrite !PyDictFacts.getitem_setitem_other by assumption.
    apply PyDictFacts.getitem_setitem_same.
  - apply PyDictFacts.getitem_setitem_same.
Qed.

(** X21: a robot controller and then a goal controller of the commander
    package built on one window in CREATOR mode.  When CREATOR is not also
    MANUAL and the two shortcut event types differ, both shortcuts are bound
    to their controller's [toggle], no other event type's callback changes,
    the marker and both shortcut texts are registered on layer 0, the goal
    controller's [to_dict] is empty, its [toggle] never touches the window,
    and the window is still one its own methods can produce. *)
Theorem commander_creator_setup (QUIT : Z) (w0 : window) :
  CREATOR <> MANUAL ->
  CREATOR_PLACE_ROBOT <> CREATOR_PLACE_GOAL ->
  let c := __init__ w0 CREATOR in
  let g := CommanderGoal.__init__ (_window c) CREATOR in
  let w := CommanderGoal._window g in
  PyDict.getitem CREATOR_PLACE_ROBOT (Window._callbacks w)
  = Some robot_toggle
  /\ PyDict.getitem CREATOR_PLACE_GOAL (Window._callbacks w)
     = Some goal_toggle
  /\ (forall ty, ty <> CREATOR_PLACE_ROBOT -> ty <> CREATOR_PLACE_GOAL ->
        PyDict.getitem ty (Window._callbacks w)
        = PyDict.getitem ty (Window._callbacks w0))
  /\ PyDict.getitem "sprite_robot" (Window._sprites w)
     = Some (0, the_sprite_robot)
  /\ PyDict.getitem "text_robot" (Window._sprites w)
     = Some (0, the_text_robot)
  /\ PyDict.getitem "text_goal" (Window._sprites w)
     = Some (0, the_text_goal)
  /\ CommanderGoal.to_dict g = PyDict.empty
  /\ (forall call,
        CommanderGoal._window (state_of (CommanderGoal.toggle call g)) = w)
  /\ (Window.reachable QUIT w0 -> Window.reachable QUIT w).
Proof.
  intros Hmode Hkeys c g w. subst w g c.
  unfold __init__, CommanderGoal.__init__.
  destruct (Window.get_window_size w0) as [ww wh] eqn:Hsize.
  rewrite Z.eqb_refl.
  assert (Hm : (CREATOR =? MANUAL) = false) by (apply Z.eqb_neq, Hmode).
  rewrite Hm.
  cbn [_window].
  match goal with
  | |- context [Window.get_window_size ?w1] =>
      destruct (Window.get_window_size w1) as [ww' wh']
  end.
  cbn [CommanderGoal._window].
  split; [| split; [| split; [| split; [| split; [| split;
    [| split; [| split]]]]]]].
  - simpl. rewrite PyDictFacts.getitem_setitem_other by assumption.
    apply PyDictFacts.getitem_setitem_same.
  - simpl. apply PyDictFacts.getitem_setitem_same.
  - intros ty Hr Hg. simpl.
    rewrite !PyDictFacts.getitem_setitem_other by assumption.
    reflexivity.
  - simpl. rewrite !PyDictFacts.getitem_setitem_other by discriminate.
    apply PyDictFacts.getitem_setitem_same.
  - simpl. rewrite !PyDictFacts.getitem_setitem_other by discriminate.
    apply PyDictFacts.getitem_setitem_same.
  - simpl. apply PyDictFacts.getitem_setitem_same.
  - reflexivity.
  - intros call. reflexivity.
  - intros Hr.
    eapply Window.reach_step; [| apply Window.step_on_callback].
    eapply Window.reach_step; [| apply Window.step_add_sprite].
    eapply Window.reach_step; [| apply Window.step_on_callback].
    eapply Window.reach_step; [| apply Window.step_add_sprite].
    eapply Window.reach_step; [| apply Window.step_add_sprite].
    exact Hr.
Qed.

End Facts.
End CommanderExtras.

(** ** Manual control and the loop of the commander package *)

Module CommanderManualExtras.
Import Sprites Commander CommanderManual.
Section Facts.
Context `{Constants}.
Variables accelerate_left slowdown_left : SimRobot -> SimRobot.
Variables accelerate_right slowdown_right : SimRobot -> SimRobot.
Variable set_time_delta : float -> SimRobot -> SimRobot.
Variable drive : SimRobot -> SimRobot * (pyval * pyval * pyval).

Local Abbreviation motor_left :=
  (_motor_left accelerate_left slowdown_left).
Local Abbreviation motor_right :=
  (_motor_right accelerate_right slowdown_right).
Local Abbreviation motors_both :=
  (_motors_both accelerate_left slowdown_left accelerate_right
                slowdown_right).
Local Abbreviation manual_loop := (loop set_time_delta drive).

Lemma set__robot_same (c : RobotController) : set__robot (_robot c) c = c.
Proof. destruct c; reflexivity. Qed.

(** X19: the motor closures never raise and change nothing but the
    simulated robot.  The left closure accelerates the left motor for +1,
    slows it down for -1 and does nothing for any other value, the right
    one likewise; the closure for both motors runs the left one and then the
    right one. *)
Theorem motor_closures_nudge_the_robot (c : RobotController)
        (left right : Z) :
  motor_left 1 c = (Return tt, set__robot (accelerate_left (_robot c)) c)
  /\ motor_left (-1) c
     = (Return tt, set__robot (slowdown_left (_robot c)) c)
  /\ (left <> 1 -> left <> -1 -> motor_left left c = (Return tt, c))
  /\ motor_right 1 c
     = (Return tt, set__robot (accelerate_right (_robot c)) c)
  /\ motor_right (-1) c
     = (Return tt, set__robot (slowdown_right (_robot c)) c)
  /\ (right <> 1 -> right <> -1 -> motor_right right c = (Return tt, c))
  /\ motors_both 1 1 c
     = (Return tt,
        set__robot (accelerate_right (accelerate_left (_robot c))) c)
  /\ (exists r, motors_both left right c = (Return tt, set__robot r c)).
Proof.
  assert (Hleft : forall l,
             motor_left l c
             = (Return tt,
                set__robot (if l =? -1 then slowdown_left (_robot c)
                            else if l =? 1 then accelerate_left (_robot c)
                            else _robot c) c)).
  { intros l. unfold _motor_left, on_robot, bind, modify, ret.
    destruct (l =? -1) eqn:Hm; destruct (l =? 1) eqn:Hp; simpl;
      try reflexivity.
    - apply Z.eqb_eq in Hm, Hp. lia.
    - now rewrite set__robot_same. }
  assert (Hright : forall r c0,
             motor_right r c0
             = (Return tt,
                set__robot (if r =? -1 then slowdown_right (_robot c0)
                            else if r =? 1 then accelerate_right (_robot c0)
                            else _robot c0) c0)).
  { intros r c0. unfold _motor_right, on_robot, bind, modify, ret.
    destruct (r =? -1) eqn:Hm; destruct (r =? 1) eqn:Hp; simpl;
      try reflexivity.
    - apply Z.eqb_eq in Hm, Hp. lia.
    - now rewrite set__robot_same. }
  split; [apply Hleft | split; [apply Hleft | split]].
  { intros H1 H2. rewrite Hleft.
    apply Z.eqb_neq in H1, H2. rewrite H1, H2.
    now rewrite set__robot_same. }
  split; [apply Hright | split; [apply Hright | split]].
  { intros H1 H2. rewrite Hright.
    apply Z.eqb_neq in H1, H2. rewrite H1, H2.
    now rewrite set__robot_same. }
  split.
  - unfold _motors_both, bind. rewrite Hleft, Hright. reflexivity.
  - unfold _motors_both, bind. rewrite Hleft, Hright.
    eexists. destruct c; reflexivity.
Qed.

(** X20: the commander package's [loop].  In CREATOR mode the simulated
    robot is not driven: an untoggled controller is left as it is, and a
    toggled one only moves its marker to the mouse.  In every other mode the
    simulated robot gets the time delta and is driven, and the marker ends
    at the position and angle [drive] answers, also when the controller is
    toggled, so the mouse position does not show. *)
Theorem commander_loop_drives_outside_creator (c : RobotController)
        (mouse : Z * Z) (delta : float) :
  (_app_mode c = CREATOR -> _toggled c = false ->
   manual_loop mouse delta c = (Return tt, c))
  /\ (_app_mode c = CREATOR -> _toggled c = true ->
      manual_loop mouse delta c
      = (Return tt,
         set__sprite_robot
           (set_position (VInt (fst mouse), VInt (snd mouse))
                         (_sprite_robot c)) c))
  /\ (_app_mode c <> CREATOR ->
      let c' := state_of (manual_loop mouse delta c) in
      manual_loop mouse delta c = (Return tt, c')
      /\ _robot c' = fst (drive (set_time_delta delta (_robot c)))
      /\ get_direction (_sprite_robot c')
         = fst (fst (snd (drive (set_time_delta delta (_robot c)))))
      /\ get_position (_sprite_robot c')
         = (snd (fst (snd (drive (set_time_delta delta (_robot c))))),
            snd (snd (drive (set_time_delta delta (_robot c)))))
      /\ _toggled c' = _toggled c
      /\ _window c' = _window c).
Proof.
  destruct c as [tg runs mode name sim w ww wh robot text].
  unfold loop, on_robot, is_toggled, bind, modify, gets, ret, state_of.
  simpl.
  split; [| split].
  - intros -> ->. simpl. rewrite Z.eqb_refl. reflexivity.
  - intros -> ->. simpl. rewrite Z.eqb_refl. reflexivity.
  - intros Hne. apply Z.eqb_neq in Hne.
    destruct tg; simpl; rewrite Hne; simpl;
      destruct (drive (set_time_delta delta sim)) as [r [[angle x] y]];
      simpl; repeat split.
Qed.

End Facts.
End CommanderManualExtras.

(** ** More on the robot controllers of both packages *)

Section ControllerExtras.
Context `{Constants}.

Import Sprites.

Lemma sim_init_untoggled_no_text (w0 : Simulation.window) app_mode :
  app_mode <> CREATOR ->
  Simulation._toggled (Simulation.__init__ w0 app_mode) = false
  /\ Simulation._text_robot (Simulation.__init__ w0 app_mode) = None.
Proof.
  intros Hne. apply Z.eqb_neq in Hne. unfold Simulation.__init__.
  destruct (Window.get_window_size w0) as [ww wh]. rewrite Hne.
  split; reflexivity.
Qed.

Lemma cmd_init_untoggled_no_text (w0 : Commander.window) app_mode :
  app_mode <> CREATOR ->
  Commander._toggled (Commander.__init__ w0 app_mode) = false
  /\ Commander._text_robot (Commander.__init__ w0 app_mode) = None.
Proof.
  intros Hne. apply Z.eqb_neq in Hne. unfold Commander.__init__.
  destruct (Window.get_window_size w0) as [ww wh]. rewrite Hne.
  split; reflexivity.
Qed.

(** X11: [toggle] on a robot controller built in a mode other than CREATOR
    raises an [AttributeError], there being no shortcut text, but only
    after it has switched the toggle flag and the [MOUSE_CLICK] callback:
    the first call leaves the controller toggled with the click handler
    registered, the second one not toggled with the handler removed. *)
Theorem toggle_outside_creator_raises (app_mode : Z) (call : bool) :
  app_mode <> CREATOR ->
  (forall w0 : Simulation.window,
     exists c1 c2,
       Simulation.toggle call (Simulation.__init__ w0 app_mode)
       = (Raise AttributeError, c1)
       /\ Simulation._toggled c1 = true
       /\ PyDict.getitem MOUSE_CLICK
            (Window._callbacks (Simulation._window c1))
          = Some Simulation.self__on_mouse_click
       /\ Simulation.toggle call c1 = (Raise AttributeError, c2)
       /\ Simulation._toggled c2 = false
       /\ PyDict.contains MOUSE_CLICK
            (Window._callbacks (Simulation._window c2)) = false)
  /\ (forall w0 : Commander.window,
        exists c1 c2,
          Commander.toggle call (Commander.__init__ w0 app_mode)
          = (Raise AttributeError, c1)
          /\ Commander._toggled c1 = true
          /\ PyDict.getitem MOUSE_CLICK
               (Window._callbacks (Commander._window c1))
             = Some Commander.robot__on_mouse_click
          /\ Commander.toggle call c1 = (Raise AttributeError, c2)
          /\ Commander._toggled c2 = false
          /\ PyDict.contains MOUSE_CLICK
               (Window._callbacks (Commander._window c2)) = false).
Proof.
  intros Hne. split; intros w0.
  - destruct (sim_init_untoggled_no_text w0 Hne) as (Hoff & Hnone).
    set (c := Simulation.__init__ w0 app_mode) in *.
    pose proof (SimulationExtras.sim_toggle_without_text call c Hnone
                  (or_introl Hoff)) as Hrun1.
    rewrite Hoff in Hrun1.
    match type of Hrun1 with _ = (_, ?s) => set (c1 := s) in * end.
    assert (Hon1 : Simulation._toggled c1 = true).
    { subst c1. rewrite SimulationExtras.sim_base_toggle_state.
      destruct c; simpl in *. now rewrite Hoff. }
    assert (Hnone1 : Simulation._text_robot c1 = None).
    { subst c1. rewrite SimulationExtras.sim_base_toggle_state.
      destruct c; exact Hnone. }
    assert (Hget1 : PyDict.getitem MOUSE_CLICK
                      (Window._callbacks (Simulation._window c1))
                    = Some Simulation.self__on_mouse_click)
      by exact (PyDictFacts.getitem_setitem_same _ _ _).
    assert (Hreg1 : PyDict.contains MOUSE_CLICK
                      (Window._callbacks (Simulation._window c1)) = true)
      by (unfold PyDict.contains; now rewrite Hget1).
    pose proof (SimulationExtras.sim_toggle_without_text call c1 Hnone1
                  (or_intror Hreg1)) as Hrun2.
    rewrite Hon1 in Hrun2.
    match type of Hrun2 with _ = (_, ?s) => set (c2 := s) in * end.
    exists c1, c2.
    split; [exact Hrun1 | split; [exact Hon1 | split; [exact Hget1 |]]].
    split; [exact Hrun2 | split].
    + subst c2. rewrite SimulationExtras.sim_base_toggle_state.
      destruct c1; simpl in *. now rewrite Hon1.
    + exact (PyDictMore.contains_remove_same _ _).
  - destruct (cmd_init_untoggled_no_text w0 Hne) as (Hoff & Hnone).
    set (c := Commander.__init__ w0 app_mode) in *.
    pose proof (CommanderExtras.cmd_toggle_without_text call c Hnone
                  (or_introl Hoff)) as Hrun1.
    rewrite Hoff in Hrun1.
    match type of Hrun1 with _ = (_, ?s) => set (c1 := s) in * end.
    assert (Hon1 : Commander._toggled c1 = true).
    { subst c1. rewrite CommanderExtras.cmd_base_toggle_state.
      destruct c; simpl in *. now rewrite Hoff. }
    assert (Hnone1 : Commander._text_robot c1 = None).
    { subst c1. rewrite CommanderExtras.cmd_base_toggle_state.
      destruct c; exact Hnone. }
    assert (Hget1 : PyDict.getitem MOUSE_CLICK
                      (Window._callbacks (Commander._window c1))
                    = Some Commander.robot__on_mouse_click)
      by exact (PyDictFacts.getitem_setitem_same _ _ _).
    assert (Hreg1 : PyDict.contains MOUSE_CLICK
                      (Window._callbacks (Commander._window c1)) = true)
      by (unfold PyDict.contains; now rewrite Hget1).
    pose proof (CommanderExtras.cmd_toggle_without_text call c1 Hnone1
                  (or_intror Hreg1)) as Hrun2.
    rewrite Hon1 in Hrun2.
    match type of Hrun2 with _ = (_, ?s) => set (c2 := s) in * end.
    exists c1, c2.
    split; [exact Hrun1 | split; [exact Hon1 | split; [exact Hget1 |]]].
    split; [exact Hrun2 | split].
    + subst c2. rewrite CommanderExtras.cmd_base_toggle_state.
      destruct c1; simpl in *. now rewrite Hon1.
    + exact (PyDictMore.contains_remove_same _ _).
Qed.

(** X12: leaving toggle mode when no [MOUSE_CLICK] callback is registered
    any more raises a [KeyError]; the toggle flag is switched off all the
    same, and the shortcut text, the marker and the window stay as they
    were. *)
Theorem toggle_off_without_handler_raises (call : bool) :
  (forall c : Simulation.RobotController,
     Simulation._toggled c = true ->
     PyDict.contains MOUSE_CLICK
       (Window._callbacks (Simulation._window c)) = false ->
     exists c',
       Simulation.toggle call c = (Raise KeyError, c')
       /\ Simulation._toggled c' = false
       /\ Simulation._text_robot c' = Simulation._text_robot c
       /\ Simulation._robot c' = Simulation._robot c
       /\ Simulation._window c' = Simulation._window c)
  /\ (forall c : Commander.RobotController,
        Commander._toggled c = true ->
        PyDict.contains MOUSE_CLICK
          (Window._callbacks (Commander._window c)) = false ->
        exists c',
          Commander.toggle call c = (Raise KeyError, c')
          /\ Commander._toggled c' = false
          /\ Commander._text_robot c' = Commander._text_robot c
          /\ Commander._sprite_robot c' = Commander._sprite_robot c
          /\ Commander._window c' = Commander._window c).
Proof.
  split; intros c Hon Hnot.
  - rewrite (SimulationExtras.sim_toggle_off_unregistered call c Hon Hnot).
    eexists. split; [reflexivity |].
    rewrite SimulationExtras.sim_base_toggle_state.
    destruct c; simpl in *. rewrite Hon. repeat split.
  - rewrite (CommanderExtras.cmd_toggle_off_unregistered call c Hon Hnot).
    eexists. split; [reflexivity |].
    rewrite CommanderExtras.cmd_base_toggle_state.
    destruct c; simpl in *. rewrite Hon. repeat split.
Qed.

(** X13: two calls of [toggle] give back the very controller they started
    from, apart from the count of executed toggle callbacks: this holds for
    a controller that is not toggled, whose shortcut text has the plain
    color and whose window has no [MOUSE_CLICK] callback. *)
Theorem toggle_twice_gives_back_controller (call1 call2 : bool) :
  (forall (c : Simulation.RobotController) (t : Text),
     Simulation._toggled c = false ->
     Simulation._text_robot c = Some t ->
     tx_color t = SHORTCUT_TEXT_COLOR ->
     PyDict.getitem MOUSE_CLICK
       (Window._callbacks (Simulation._window c)) = None ->
     (Simulation.toggle call1 ;; Simulation.toggle call2)%py c
     = (Return tt,
        Simulation.set_callback_runs
          (Simulation.callback_runs c + Nat.b2n call1 + Nat.b2n call2) c))
  /\ (forall (c : Commander.RobotController) (t : Text),
        Commander._toggled c = false ->
        Commander._text_robot c = Some t ->
        tx_color t = SHORTCUT_TEXT_COLOR ->
        PyDict.getitem MOUSE_CLICK
          (Window._callbacks (Commander._window c)) = None ->
        (Commander.toggle call1 ;; Commander.toggle call2)%py c
        = (Return tt,
           Commander.set_callback_runs
             (Commander.callback_runs c + Nat.b2n call1 + Nat.b2n call2)
             c)).
Proof.
  split; intros c t Hoff Ht Hcolor Hnone.
  - unfold bind.
    rewrite (SimulationExtras.sim_toggle_on_state call1 c Hoff Ht).
    erewrite SimulationExtras.sim_toggle_off_state
      with (t := set_color SHORTCUT_TEXT_COLOR_ACTIVE t).
    + rewrite !SimulationExtras.sim_base_toggle_state.
      destruct c as [tg runs mode name w ww wh robot text].
      simpl in *. subst tg text.
      unfold Simulation.set_callback_runs, Simulation.set__text_robot,
        Simulation.set__window. simpl.
      rewrite (PyDictMore.remove_setitem_absent _ _ _ Hnone).
      destruct w, t; simpl in *. subst. reflexivity.
    + rewrite SimulationExtras.sim_base_toggle_state.
      destruct c; simpl in *. now rewrite Hoff.
    + reflexivity.
    + exact (PyDictMore.contains_setitem_same _ _ _).
  - unfold bind.
    rewrite (CommanderExtras.cmd_toggle_on_state call1 c Hoff Ht).
    erewrite CommanderExtras.cmd_toggle_off_state
      with (t := set_color SHORTCUT_TEXT_COLOR_ACTIVE t).
    + rewrite !CommanderExtras.cmd_base_toggle_state.
      destruct c as [tg runs mode name sim w ww wh robot text].
      simpl in *. subst tg text.
      unfold Commander.set_callback_runs, Commander.set__text_robot,
        Commander.set__window. simpl.
      rewrite (PyDictMore.remove_setitem_absent _ _ _ Hnone).
      destruct w, t; simpl in *. subst. reflexivity.
    + rewrite CommanderExtras.cmd_base_toggle_state.
      destruct c; simpl in *. now rewrite Hoff.
    + reflexivity.
    + exact (PyDictMore.contains_setitem_same _ _ _).
Qed.

(** X16: the robot controllers use the window through its methods only:
    after [toggle], [_on_mouse_click], [from_dict] and the simulation
    package's [loop], however they end, the controller's window is still
    one that [BaseWindow]'s constructor and methods can produce. *)
Theorem controller_methods_keep_window_reachable (QUIT : Z) :
  (forall c : Simulation.RobotController,
     Window.reachable QUIT (Simulation._window c) ->
     (forall call,
        Window.reachable QUIT
          (Simulation._window (state_of (Simulation.toggle call c))))
     /\ (forall pos,
           Window.reachable QUIT
             (Simulation._window
                (state_of (Simulation._on_mouse_click pos c))))
     /\ (forall d,
           Window.reachable QUIT
             (Simulation._window (state_of (Simulation.from_dict d c))))
     /\ (forall mouse,
           Window.reachable QUIT
             (Simulation._window (state_of (Simulation.loop mouse c)))))
  /\ (forall c : Commander.RobotController,
        Window.reachable QUIT (Commander._window c) ->
        (forall call,
           Window.reachable QUIT
             (Commander._window (state_of (Commander.toggle call c))))
        /\ (forall pos,
              Window.reachable QUIT
                (Commander._window
                   (state_of (Commander._on_mouse_click pos c))))
        /\ (forall d,
              Window.reachable QUIT
                (Commander._window
                   (state_of (Commander.from_dict d c))))).
Proof.
  split; intros c Hreach.
  - split; [| split; [| split]].
    + intros call.
      apply SimulationExtras.sim_toggle_window_reachable, Hreach.
    + intros pos.
      change (Window.reachable QUIT
                (Simulation._window
                   (state_of
                      (Simulation.toggle true
                         (Simulation.set__robot
                            (set_position pos (Simulation._robot c)) c))))).
      apply SimulationExtras.sim_toggle_window_reachable.
      destruct c; exact Hreach.
    + intros d. rewrite SimulationExtras.sim_from_dict_window. exact Hreach.
    + intros mouse. rewrite SimulationExtras.sim_loop_window. exact Hreach.
  - split; [| split].
    + intros call.
      apply CommanderExtras.cmd_toggle_window_reachable, Hreach.
    + intros pos.
      change (Window.reachable QUIT
                (Commander._window
                   (state_of
                      (Commander.toggle true
                         (Commander.set__sprite_robot
                            (set_position pos (Commander._sprite_robot c))
                            c))))).
      apply CommanderExtras.cmd_toggle_window_reachable.
      destruct c; exact Hreach.
    + intros d. rewrite CommanderExtras.cmd_from_dict_window. exact Hreach.
Qed.

End ControllerExtras.

(** ** The further properties at concrete controllers *)

Import MoreExamples.

Lemma simulation_controller_window_reachable :
  Window.reachable QUIT (Simulation._window simulation_controller).
Proof.
  change (Window.reachable QUIT
            (state_of (Window.on_callback CREATOR_PLACE_ROBOT
                         Simulation.self_toggle
              (state_of (Window.add_sprite "text_robot"
                           Simulation.the_text_robot 0
                (state_of (Window.add_sprite "sprite_robot"
                             Simulation.the_sprite_robot 0
                             simulation_window))))))).
  eapply Window.reach_step; [| apply Window.step_on_callback].
  eapply Window.reach_step; [| apply Window.step_add_sprite].
  eapply Window.reach_step; [| apply Window.step_add_sprite].
  apply Window.reach_init.
Defined.

Lemma simulation_init_registers_witness :
  CREATOR = CREATOR
  /\ PyDict.getitem CREATOR_PLACE_ROBOT
       (Window._callbacks (Simulation._window simulation_controller))
     = Some Simulation.self_toggle.
Proof.
  split; [reflexivity |].
  apply (@SimulationExtras.simulation_init_registers rational_numbers
           constants QUIT simulation_window CREATOR).
  reflexivity.
Defined.

Lemma simulation_from_dict_then_to_dict_witness :
  PyDict.getitem "x" full_record = Some (VInt 10)
  /\ PyDict.getitem "y" full_record = Some (VInt 20)
  /\ PyDict.getitem "direction" full_record = Some (VInt 90)
  /\ Simulation.to_dict
       (state_of (Simulation.from_dict full_record simulation_controller))
     = Return [("robot", VDict full_record)].
Proof.
  split; [reflexivity | split; [reflexivity | split; [reflexivity |]]].
  apply (@SimulationExtras.simulation_from_dict_then_to_dict
           rational_numbers full_record (VInt 10) (VInt 20) (VInt 90)
           simulation_controller eq_refl eq_refl eq_refl).
Defined.

Lemma simulation_placement_witness :
  Simulation._toggled simulation_controller = false
  /\ (exists t, Simulation._text_robot simulation_controller = Some t)
  /\ exists c1 c2 c3,
       Simulation.toggle true simulation_controller = (Return tt, c1)
       /\ Simulation.loop (5, 6) c1 = (Return tt, c2)
       /\ Simulation._on_mouse_click (VInt 7, VInt 8) c2 = (Return tt, c3)
       /\ Sprites.get_position (Simulation._robot c3) = (VInt 7, VInt 8).
Proof.
  split; [reflexivity | split; [eexists; reflexivity |]].
  destruct (@SimulationExtras.simulation_placement rational_numbers
              constants simulation_controller _ (5, 6) (VInt 7, VInt 8)
              eq_refl eq_refl)
    as (c1 & c2 & c3 & H1 & H2 & H3 & _ & _ & H6 & _).
  exists c1, c2, c3. auto.
Defined.

Lemma commander_from_dict_rebuilds_robot_witness :
  PyDict.getitem "x" record_with_huge_x = Some (VInt (10 ^ 400))
  /\ PyDict.getitem "y" record_with_huge_x = Some (VInt 20)
  /\ PyDict.getitem "direction" record_with_huge_x = Some (VInt 90)
  /\ float_overflows (10 ^ 400) = true
  /\ result_of (Commander.from_dict record_with_huge_x commander_controller)
     = Raise OverflowError
  /\ PyDict.getitem "x" record_with_mapping_x = Some (VDict [])
  /\ result_of (Commander.from_dict record_with_mapping_x
                  commander_controller) = Raise TypeError.
Proof.
  assert (Hov : float_overflows (10 ^ 400) = true)
    by (vm_compute; reflexivity).
  split; [reflexivity | split; [reflexivity | split; [reflexivity |]]].
  split; [exact Hov | split; [| split; [reflexivity |]]].
  - exact (proj1 (proj2 (proj2 (proj2 (proj2 (proj2 (proj2
             (@CommanderExtras.commander_from_dict_rebuilds_robot
                rational_numbers record_with_huge_x (VInt (10 ^ 400))
                (VInt 20) (VInt 90) commander_controller
                eq_refl eq_refl eq_refl)))))))
           (10 ^ 400) (or_introl eq_refl) Hov).
  - exact (proj2 (proj2 (proj2 (proj2 (proj2 (proj2 (proj2
             (@CommanderExtras.commander_from_dict_rebuilds_robot
                rational_numbers record_with_mapping_x (VDict [])
                (VInt 20) (VInt 90) commander_controller
                eq_refl eq_refl eq_refl)))))))
           [] (or_introl eq_refl)).
Defined.

Lemma commander_manual_callbacks_witness :
  NoDup [MANUAL_LEFT_INCREASE; MANUAL_LEFT_DECREASE; MANUAL_RIGHT_INCREASE;
         MANUAL_RIGHT_DECREASE; MANUAL_BOTH_INCREASE]
  /\ PyDict.getitem MANUAL_BOTH_INCREASE
       (Window._callbacks (Commander._window commander_manual_controller))
     = Some (Commander.robot_motors_both 1 1).
Proof.
  assert (Hnd : NoDup [MANUAL_LEFT_INCREASE; MANUAL_LEFT_DECREASE;
                       MANUAL_RIGHT_INCREASE; MANUAL_RIGHT_DECREASE;
                       MANUAL_BOTH_INCREASE]).
  { simpl. repeat constructor; simpl; intuition discriminate. }
  split; [exact Hnd |].
  apply (@CommanderExtras.commander_manual_callbacks rational_numbers
           constants commander_window Hnd).
Defined.

Lemma commander_creator_setup_witness :
  CREATOR <> MANUAL
  /\ CREATOR_PLACE_ROBOT <> CREATOR_PLACE_GOAL
  /\ PyDict.getitem CREATOR_PLACE_GOAL
       (Window._callbacks (CommanderGoal._window goal_controller))
     = Some Commander.goal_toggle.
Proof.
  assert (Hm : CREATOR <> MANUAL) by (simpl; discriminate).
  assert (Hk : CREATOR_PLACE_ROBOT <> CREATOR_PLACE_GOAL)
    by (simpl; discriminate).
  split; [exact Hm | split; [exact Hk |]].
  apply (@CommanderExtras.commander_creator_setup rational_numbers
           constants QUIT commander_window Hm Hk).
Defined.

Lemma motor_closures_nudge_the_robot_witness :
  (0 <> 1 /\ 0 <> -1)
  /\ CommanderManual._motor_left (nudge 1) (nudge (-1)) 0
       commander_manual_controller
     = (Return tt, commander_manual_controller).
Proof.
  assert (H1 : 0 <> 1) by discriminate.
  assert (H2 : 0 <> -1) by discriminate.
  split; [split; assumption |].
  exact (proj1 (proj2 (proj2
           (@CommanderManualExtras.motor_closures_nudge_the_robot
              rational_numbers (nudge 1) (nudge (-1)) (nudge 1) (nudge (-1))
              commander_manual_controller 0 0))) H1 H2).
Defined.

Lemma commander_loop_drives_outside_creator_witness :
  Commander._app_mode commander_manual_controller <> CREATOR
  /\ Sprites.get_direction
       (Commander._sprite_robot
          (state_of (CommanderManual.loop (fun _ r => r) example_drive
                       (5, 6) (QArith_base.inject_Z 1)
                       commander_manual_controller)))
     = VInt 0.
Proof.
  assert (Hm : Commander._app_mode commander_manual_controller <> CREATOR)
    by (simpl; discriminate).
  split; [exact Hm |].
  apply (proj2 (proj2
           (@CommanderManualExtras.commander_loop_drives_outside_creator
              rational_numbers constants (fun _ r => r) example_drive
              commander_manual_controller (5, 6) (QArith_base.inject_Z 1)))
           Hm).
Defined.

Lemma toggle_outside_creator_raises_witness :
  MANUAL <> CREATOR
  /\ result_of (Simulation.toggle true simulation_manual_controller)
     = Raise AttributeError.
Proof.
  assert (Hm : MANUAL <> CREATOR) by (simpl; discriminate).
  split; [exact Hm |].
  destruct (proj1 (@toggle_outside_creator_raises rational_numbers
                     constants MANUAL true Hm) simulation_window)
    as (c1 & c2 & Hrun & _).
  unfold simulation_manual_controller, result_of. rewrite Hrun.
  reflexivity.
Defined.

Lemma toggle_off_without_handler_raises_witness :
  Simulation._toggled simulation_controller_unhooked = true
  /\ PyDict.contains MOUSE_CLICK
       (Window._callbacks
          (Simulation._window simulation_controller_unhooked)) = false
  /\ result_of (Simulation.toggle true simulation_controller_unhooked)
     = Raise KeyError.
Proof.
  split; [reflexivity | split; [reflexivity |]].
  destruct (proj1 (@toggle_off_without_handler_raises rational_numbers
                     constants true)
                  simulation_controller_unhooked eq_refl eq_refl)
    as (c' & Hrun & _).
  unfold result_of. rewrite Hrun. reflexivity.
Defined.

Lemma toggle_twice_gives_back_controller_witness :
  Simulation._toggled simulation_controller = false
  /\ PyDict.getitem MOUSE_CLICK
       (Window._callbacks (Simulation._window simulation_controller))
     = None
  /\ (Simulation.toggle false ;; Simulation.toggle false)%py
       simulation_controller
     = (Return tt, simulation_controller).
Proof.
  split; [reflexivity | split; [reflexivity |]].
  apply (proj1 (@toggle_twice_gives_back_controller rational_numbers
                  constants false false)
               simulation_controller _ eq_refl eq_refl eq_refl eq_refl).
Defined.

Lemma controller_methods_keep_window_reachable_witness :
  Window.reachable QUIT (Simulation._window simulation_controller)
  /\ Window.reachable QUIT
       (Simulation._window
          (state_of (Simulation.toggle true simulation_controller))).
Proof.
  split; [apply simulation_controller_window_reachable |].
  exact (proj1 (proj1 (@controller_methods_keep_window_reachable
                         rational_numbers constants QUIT)
                      simulation_controller
                      simulation_controller_window_reachable) true).
Defined.
